(** * EntryList: paged, searchable listing of datastore keys

    A shallow embedding of [src/components/EntryList.tsx].  The component
    keeps five pieces of React state (entries, searchQuery, isLoading,
    cursor, hasMore); its one operation, [fetchEntries], is asynchronous, so
    it is embedded as two halves: what runs before the first [await], where
    the call may already end in its [catch], and what runs once the network
    has answered.  Everything the component does to the outside world
    (requests, toasts, the selection callback, console output) is returned
    as a list of effects. *)

From Stdlib Require Import List String Bool ZArith Lia DecimalString.
Import ListNotations.
Open Scope string_scope.
Set Warnings "-register-all".

(** ** JavaScript values met by the component *)

(** What the source leaves to the JavaScript engine: numbers are IEEE
    doubles, and the text of an engine-raised [TypeError] differs between
    engines.  Both are taken as given. *)
Record Runtime := {
  number : Type;
  number_truthy : number -> bool;
  number_to_string : number -> string;
  number_same : number -> number -> bool;
  null_read_message : string -> string;
  not_callable_message : string -> string;
  to_primitive_message : string
}.

Section Component.

Variable rt : Runtime.

(** The result of [response.json()].  An object keeps its members in source
    order; a repeated member name is resolved by [lookup_member]. *)
Inductive json : Type :=
| JNull
| JBool (b : bool)
| JNum (n : number rt)
| JStr (s : string)
| JArr (items : list json)
| JObj (members : list (string * json)).

(** Values that the expressions of [fetchEntries] can evaluate to. *)
Inductive value : Type :=
| VUndefined
| VJson (j : json)
| VBuiltin (name : string).

(** What a [throw] carries: an [Error] instance with its [message], or
    anything else. *)
Inductive thrown : Type :=
| ErrorObject (message : string)
| NonError.

(** [JSON.parse] keeps the last of several members with one name. *)
Fixpoint lookup_member (p : string) (members : list (string * json)) : option json :=
  match members with
  | [] => None
  | (k, v) :: rest =>
      match lookup_member p rest with
      | Some later => Some later
      | None => if String.eqb k p then Some v else None
      end
  end.

(** [j.p] for the four property names the component reads ([error], [keys],
    [nextPageCursor], [key]).  [None] is the [TypeError] of reading a
    property of [null].  Of the four names only [keys] is found on a
    prototype: [Array.prototype.keys]. *)
Definition get_prop (j : json) (p : string) : option value :=
  match j with
  | JNull => None
  | JObj members =>
      match lookup_member p members with
      | Some v => Some (VJson v)
      | None => Some VUndefined
      end
  | JArr _ => if String.eqb p "keys" then Some (VBuiltin "keys") else Some VUndefined
  | JBool _ | JNum _ | JStr _ => Some VUndefined
  end.

Definition json_truthy (j : json) : bool :=
  match j with
  | JNull => false
  | JBool b => b
  | JNum n => number_truthy rt n
  | JStr s => negb (String.eqb s "")
  | JArr _ | JObj _ => true
  end.

Definition truthy (v : value) : bool :=
  match v with
  | VUndefined => false
  | VJson j => json_truthy j
  | VBuiltin _ => true
  end.

Fixpoint join (sep : string) (parts : list string) : string :=
  match parts with
  | [] => ""
  | [s] => s
  | s :: rest => s ++ sep ++ join sep rest
  end.

(** [String(j)], [None] when the conversion throws [TypeError].  An array
    prints its items joined by commas, with [null] items printed as nothing.
    An object is printed by [Object.prototype.toString] unless it has a
    member of its own called [toString]: a parsed member is never a
    function, and [valueOf], inherited or own, gives no primitive either,
    so the conversion throws. *)
Fixpoint json_to_string (j : json) : option string :=
  match j with
  | JNull => Some "null"
  | JBool true => Some "true"
  | JBool false => Some "false"
  | JNum n => Some (number_to_string rt n)
  | JStr s => Some s
  | JArr items =>
      option_map (join ",")
        ((fix each (l : list json) : option (list string) :=
            match l with
            | [] => Some []
            | x :: rest =>
                match (match x with JNull => Some "" | _ => json_to_string x end),
                      each rest with
                | Some s, Some ss => Some (s :: ss)
                | _, _ => None
                end
            end) items)
  | JObj members =>
      match lookup_member "toString" members with
      | Some _ => None
      | None => Some "[object Object]"
      end
  end.

Definition to_string (v : value) : option string :=
  match v with
  | VUndefined => Some "undefined"
  | VJson j => json_to_string j
  | VBuiltin name => Some ("function " ++ name ++ "() { [native code] }")
  end.

(** [a || b] *)
Definition js_or (a b : value) : value := if truthy a then a else b.

(** [Object.is] between a value held in state and one just read from a
    parsed body: primitives compare by content, a freshly parsed array or
    object is never the one already stored. *)
Definition same_value (a b : value) : bool :=
  match a, b with
  | VUndefined, VUndefined => true
  | VJson JNull, VJson JNull => true
  | VJson (JBool x), VJson (JBool y) => Bool.eqb x y
  | VJson (JNum x), VJson (JNum y) => number_same rt x y
  | VJson (JStr x), VJson (JStr y) => String.eqb x y
  | VBuiltin x, VBuiltin y => String.eqb x y
  | _, _ => false
  end.

(** ** Props, state and effects *)

Record Props := {
  universeId : string;
  apiToken : string;
  datastoreName : string;
  selectedEntryKey : string
}.

Record DatastoreEntry := { key : value }.

(** The five [useState] cells.  [cursor] is declared a string, but holds
    whatever [data.nextPageCursor || ""] evaluated to. *)
Record State := {
  entries : list DatastoreEntry;
  searchQuery : string;
  isLoading : bool;
  cursor : value;
  hasMore : bool
}.

Definition empty_string : value := VJson (JStr "").

Definition initial_state : State :=
  {| entries := []; searchQuery := ""; isLoading := false;
     cursor := empty_string; hasMore := true |}.

Definition setEntries (f : list DatastoreEntry -> list DatastoreEntry) (st : State) : State :=
  {| entries := f (entries st); searchQuery := searchQuery st;
     isLoading := isLoading st; cursor := cursor st; hasMore := hasMore st |}.

Definition setSearchQuery (q : string) (st : State) : State :=
  {| entries := entries st; searchQuery := q;
     isLoading := isLoading st; cursor := cursor st; hasMore := hasMore st |}.

Definition setIsLoading (b : bool) (st : State) : State :=
  {| entries := entries st; searchQuery := searchQuery st;
     isLoading := b; cursor := cursor st; hasMore := hasMore st |}.

Definition setCursor (c : value) (st : State) : State :=
  {| entries := entries st; searchQuery := searchQuery st;
     isLoading := isLoading st; cursor := c; hasMore := hasMore st |}.

Definition setHasMore (b : bool) (st : State) : State :=
  {| entries := entries st; searchQuery := searchQuery st;
     isLoading := isLoading st; cursor := cursor st; hasMore := b |}.

(** The listing request: the datastore name that goes (URL-encoded) into
    the path, and the [URLSearchParams] in insertion order. *)
Record Request := {
  datastore : string;
  params : list (string * string)
}.

Inductive effect : Type :=
| Fetch (r : Request)
| Toast (message severity : string) (duration : Z)
| ConsoleLog (label : string) (arg : value)
| OnSelectEntry (arg : value)
| SetTimeout (delay : Z)
| ClearTimeout.

(** What the two [await]s of [fetchEntries] can deliver. *)
Inductive response : Type :=
| FetchRejected (t : thrown)
| JsonRejected (t : thrown)
| Parsed (data : json).

(** ** [fetchEntries] *)

(** The body of the [try] block after the first [await]: it updates the
    state cell by cell and may stop at a [throw]. *)
Definition M (A : Type) : Type := State -> State * (thrown + A).

Definition ret {A} (a : A) : M A := fun st => (st, inr a).

Definition throw {A} (t : thrown) : M A := fun st => (st, inl t).

Definition bind {A B} (m : M A) (k : A -> M B) : M B :=
  fun st =>
    match m st with
    | (st1, inl t) => (st1, inl t)
    | (st1, inr a) => k a st1
    end.

Definition update (f : State -> State) : M unit := fun st => (f st, inr tt).

Notation "x <- m ;; k" := (bind m (fun x => k))
  (at level 61, m at next level, right associativity).
Notation "m ;;; k" := (bind m (fun _ => k))
  (at level 61, right associativity).

(** A property read that raises [TypeError] on [null]. *)
Definition read (j : json) (p : string) : M value :=
  match get_prop j p with
  | Some v => ret v
  | None => throw (ErrorObject (null_read_message rt p))
  end.

(** [arr.map((k) => ({ key: k.key }))] over the items of an array. *)
Fixpoint map_items (items : list json) : M (list DatastoreEntry) :=
  match items with
  | [] => ret []
  | k :: rest =>
      v <- read k "key" ;;
      tl <- map_items rest ;;
      ret ({| key := v |} :: tl)
  end.

(** [(data.keys || []).map(...)]: only an array has a [map] to call. *)
Definition formattedEntries (keys : value) : M (list DatastoreEntry) :=
  match js_or keys (VJson (JArr [])) with
  | VJson (JArr items) => map_items items
  | _ => throw (ErrorObject (not_callable_message rt "map"))
  end.

(** [String(v)] where the code needs a string: the text, or the
    [TypeError] of a value that has none. *)
Definition stringify (v : value) : thrown + string :=
  match to_string v with
  | Some s => inr s
  | None => inl (ErrorObject (to_primitive_message rt))
  end.

(** The text of a value that has one; for a value without a text, which no
    request ever carries, the empty text stands in. *)
Definition text_of (v : value) : string :=
  match to_string v with
  | Some s => s
  | None => ""
  end.

(** Lines 36-46, for a call whose parameters can be built: the request it
    makes.  [cursor0] is the [cursor] the callback closed over, that of the
    render it was made in.  Whether the parameters can be built is decided
    in [fetchEntries_start], and only then is this request made. *)
Definition fetchEntries_request (p : Props) (cursor0 : value)
    (searchValue : string) (newSearch : bool) : Request :=
  let currentCursor := if newSearch then empty_string else cursor0 in
  {| datastore := datastoreName p;
     params :=
       ([("universeId", universeId p); ("apiToken", apiToken p);
         ("prefix", searchValue)]
        ++ (if truthy currentCursor
            then [("cursor", text_of currentCursor)] else []))%list |}.

(** Lines 35-46: everything up to the first [await].  [new URLSearchParams]
    converts every value to a string; the three props and the search value
    are strings, a truthy cursor is whatever was stored, and the conversion
    of an object with a [toString] member of its own throws, inside the
    [try] and before any request is made. *)
Definition fetchEntries_start (p : Props) (cursor0 : value)
    (searchValue : string) (newSearch : bool) (st : State)
    : State * (thrown + Request) :=
  let currentCursor := if newSearch then empty_string else cursor0 in
  (setIsLoading true st,
   if truthy currentCursor then
     match stringify currentCursor with
     | inr _ => inr (fetchEntries_request p cursor0 searchValue newSearch)
     | inl t => inl t
     end
   else inr (fetchEntries_request p cursor0 searchValue newSearch)).

(** Lines 44-61: the rest of the [try] block, given what the awaits
    delivered.  [new Error(data.error)] converts its argument to a string,
    and throws what that conversion throws. *)
Definition fetchEntries_try (newSearch : bool) (r : response) : M unit :=
  match r with
  | FetchRejected t => throw t
  | JsonRejected t => throw t
  | Parsed data =>
      err <- read data "error" ;;
      (if truthy err then
         match stringify err with
         | inr message => throw (ErrorObject message)
         | inl t => throw t
         end
       else ret tt) ;;;
      keys <- read data "keys" ;;
      formatted <- formattedEntries keys ;;
      update (setEntries (fun prev => if newSearch then formatted else (prev ++ formatted)%list)) ;;;
      next <- read data "nextPageCursor" ;;
      update (setCursor (js_or next empty_string)) ;;;
      next' <- read data "nextPageCursor" ;;
      update (setHasMore (truthy next'))
  end.

(** Lines 62-65. *)
Definition errorMessage (t : thrown) : string :=
  match t with
  | ErrorObject message => message
  | NonError => "Unknown error"
  end.

Definition fetchEntries_catch (t : thrown) : list effect :=
  [Toast ("Error: " ++ errorMessage t) "error" 3000%Z].

(** Lines 44-68: the [try] block from its first [await] on, then [catch]
    and [finally]. *)
Definition fetchEntries_finish (newSearch : bool) (r : response) (st : State)
    : State * list effect :=
  match fetchEntries_try newSearch r st with
  | (st1, inl t) => (setIsLoading false st1, fetchEntries_catch t)
  | (st1, inr _) => (setIsLoading false st1, [])
  end.

(** A call from its first line to its first [await], or, when building
    the parameters throws, to the end of [finally] (lines 34-46, 62-68).
    The flag says whether a request went out and an answer is awaited. *)
Definition fetchEntries_call (p : Props) (cursor0 : value)
    (searchValue : string) (newSearch : bool) (st : State)
    : State * list effect * bool :=
  match fetchEntries_start p cursor0 searchValue newSearch st with
  | (st1, inr req) => (st1, [Fetch req], true)
  | (st1, inl t) => (setIsLoading false st1, fetchEntries_catch t, false)
  end.

(** One whole call whose request went out and was answered by [r], with
    nothing else happening in between.  A call that throws before its
    [await] has no answer; it is [fetchEntries_call] that tells the two
    apart. *)
Definition fetchEntries (p : Props) (searchValue : string) (newSearch : bool)
    (r : response) (st : State) : State * list effect :=
  let st1 := fst (fetchEntries_start p (cursor st) searchValue newSearch st) in
  let (st2, out2) := fetchEntries_finish newSearch r st1 in
  (st2, (Fetch (fetchEntries_request p (cursor st) searchValue newSearch) :: out2)%list).

(** ** Handlers, effects and the rendered list *)

(** Lines 108-111. *)
Definition handleEntrySelect (k : value) : list effect :=
  [ConsoleLog "Selected entry:" k; OnSelectEntry k].

(** Lines 130-139: the [i]-th button's [onClick]. *)
Definition click_entry (i : nat) (st : State) : State * list effect :=
  match nth_error (entries st) i with
  | Some entry => (st, handleEntrySelect (key entry))
  | None => (st, [])
  end.

(** Lines 140-146: the sentinel is rendered only under [hasMore]. *)
Definition sentinel (st : State) : option unit :=
  if hasMore st then Some tt else None.

(** Lines 89-106: the ref callback.  [Some q] is an observer whose callback
    will call [fetchEntries(q)]; [None] is the early [return]. *)
Definition observerTarget (node : option unit) (st : State) : option string :=
  match node with
  | None => None
  | Some _ =>
      if isLoading st || negb (hasMore st) then None
      else Some (searchQuery st)
  end.

(** Lines 94-98: the observer's callback, [newSearch] left to its
    default. *)
Definition observer_callback (p : Props) (q : string) (isIntersecting : bool)
    (st : State) : option (State * list effect * bool) :=
  if isIntersecting then Some (fetchEntries_call p (cursor st) q false st)
  else None.

(** Lines 73-77. *)
Definition datastore_effect (p : Props) (st : State)
    : option (State * list effect * bool) :=
  if negb (String.eqb (datastoreName p) "")
  then Some (fetchEntries_call p (cursor st) "" true st)
  else None.

(** Lines 80-84: what the timer does when it fires, for the [searchQuery]
    it closed over. *)
Definition timer_callback (p : Props) (q : string) (st : State)
    : option (State * list effect * bool) :=
  if negb (String.eqb (datastoreName p) "")
  then Some (fetchEntries_call p (cursor st) q true st)
  else None.

Definition debounce_delay : Z := 500.

(** Lines 123-126: the input's [onChange]. *)
Definition onChange (p : Props) (v : string) (st : State)
    : State * list effect * bool :=
  fetchEntries_call p (cursor st) v true (setSearchQuery v st).

(** Lines 130-139: can React render a button for this key?  The key is
    the button's child; a plain object is no valid child, alone or as an
    item of an array, and React throws while rendering it. *)
Fixpoint renderable_json (j : json) : bool :=
  match j with
  | JObj _ => false
  | JArr items =>
      (fix all (l : list json) : bool :=
         match l with
         | [] => true
         | x :: rest => renderable_json x && all rest
         end) items
  | JNull | JBool _ | JNum _ | JStr _ => true
  end.

Definition renderable_key (v : value) : bool :=
  match v with
  | VJson j => renderable_json j
  | VUndefined | VBuiltin _ => true
  end.

Definition renderable (l : list DatastoreEntry) : bool :=
  forallb (fun e => renderable_key (key e)) l.

(** ** The mounted component under React

    React re-renders after every state change, runs the cleanup of each
    effect whose dependencies changed and then the effects themselves.
    [fetchEntries] is a new function exactly when [cursor] is a new value
    (the props do not change while mounted, [toast] is stable), so both
    [useEffect]s and the ref callback follow [cursor].  A render that
    throws takes the component off the page: its cleanups run, its effects
    do not. *)

Record World := {
  state : State;
  timer : option (Z * string);      (* time left, captured [searchQuery] *)
  inflight : list (nat * bool);     (* pending call, its [newSearch] *)
  next_id : nat;
  mounted : bool
}.

Inductive event : Type :=
| Change (v : string)
| Elapse (ms : Z)
| Respond (id : nat) (r : response)
| Intersect (isIntersecting : bool)
| Click (i : nat)
| Unmount.

Definition with_state (st : State) (w : World) : World :=
  {| state := st; timer := timer w; inflight := inflight w;
     next_id := next_id w; mounted := mounted w |}.

Definition with_timer (t : option (Z * string)) (w : World) : World :=
  {| state := state w; timer := t; inflight := inflight w;
     next_id := next_id w; mounted := mounted w |}.

(** A call of [fetchEntries] has started: remember it until it is
    answered. *)
Definition started (newSearch : bool) (st : State) (w : World) : World :=
  {| state := st; timer := timer w;
     inflight := (inflight w ++ [(next_id w, newSearch)])%list;
     next_id := S (next_id w); mounted := mounted w |}.

(** What a call that has run up to its [await], or to its end, leaves
    behind. *)
Definition after_call (newSearch : bool) (res : State * list effect * bool)
    (w : World) : World * list effect :=
  match res with
  | (st1, out, true) => (started newSearch st1 w, out)
  | (st1, out, false) => (with_state st1 w, out)
  end.

Fixpoint take_call (id : nat) (calls : list (nat * bool))
    : option (bool * list (nat * bool)) :=
  match calls with
  | [] => None
  | (i, b) :: rest =>
      if Nat.eqb i id then Some (b, rest)
      else match take_call id rest with
           | Some (b', rest') => Some (b', (i, b) :: rest')
           | None => None
           end
  end.

(** Has a finished call stored a cursor that [Object.is] tells from the one
    held before?  A call that threw stored none. *)
Definition cursor_replaced (newSearch : bool) (r : response) (st : State) : bool :=
  match fetchEntries_try newSearch r st with
  | (st1, inr _) => negb (same_value (cursor st) (cursor st1))
  | (_, inl _) => false
  end.

(** Has a finished call put a page on the list? *)
Definition page_stored (newSearch : bool) (r : response) (st : State) : bool :=
  match fetchEntries_try newSearch r st with
  | (_, inr _) => true
  | (_, inl _) => false
  end.

(** The effects that follow a render whose state was [before];
    [cursor_changed] says whether [fetchEntries] is a new function. *)
Definition rerender (p : Props) (cursor_changed : bool) (before : State) (w : World)
    : World * list effect :=
  let query_changed := negb (String.eqb (searchQuery before) (searchQuery (state w))) in
  let debounce_changed := query_changed || cursor_changed in
  let out0 := if debounce_changed then [ClearTimeout] else [] in
  let (w1, out1) :=
    if cursor_changed then
      match datastore_effect p (state w) with
      | Some res => after_call true res w
      | None => (w, [])
      end
    else (w, []) in
  let (w2, out2) :=
    if debounce_changed
    then (with_timer (Some (debounce_delay, searchQuery (state w1))) w1,
          [SetTimeout debounce_delay])
    else (w1, []) in
  (w2, (out0 ++ out1 ++ out2)%list).

(** First render and first run of both effects. *)
Definition mount (p : Props) : World * list effect :=
  let w0 := {| state := initial_state; timer := None; inflight := [];
               next_id := 0; mounted := true |} in
  let (w1, out1) :=
    match datastore_effect p initial_state with
    | Some res => after_call true res w0
    | None => (w0, [])
    end in
  (with_timer (Some (debounce_delay, searchQuery (state w1))) w1,
   (out1 ++ [SetTimeout debounce_delay])%list).

Definition step (p : Props) (w : World) (e : event) : World * list effect :=
  match e with
  | Respond id r =>
      match take_call id (inflight w) with
      | None => (w, [])
      | Some (newSearch, rest) =>
          let w0 := {| state := state w; timer := timer w; inflight := rest;
                       next_id := next_id w; mounted := mounted w |} in
          let (st1, out1) := fetchEntries_finish newSearch r (state w) in
          if mounted w then
            if page_stored newSearch r (state w) && negb (renderable (entries st1))
            then ({| state := st1; timer := None; inflight := rest;
                     next_id := next_id w; mounted := false |},
                  (out1 ++ [ClearTimeout])%list)
            else
              let (w2, out2) :=
                rerender p (cursor_replaced newSearch r (state w)) (state w)
                  (with_state st1 w0) in
              (w2, (out1 ++ out2)%list)
          else (w0, out1)
      end
  | _ =>
      if negb (mounted w) then (w, []) else
      match e with
      | Change v =>
          let (w1, out1) := after_call true (onChange p v (state w)) w in
          let (w2, out2) := rerender p false (state w) w1 in
          (w2, (out1 ++ out2)%list)
      | Elapse ms =>
          match timer w with
          | None => (w, [])
          | Some (remaining, q) =>
              if (remaining <=? ms)%Z then
                match timer_callback p q (state w) with
                | Some res => after_call true res (with_timer None w)
                | None => (with_timer None w, [])
                end
              else (with_timer (Some ((remaining - ms)%Z, q)) w, [])
          end
      | Intersect isIntersecting =>
          match observerTarget (sentinel (state w)) (state w) with
          | None => (w, [])
          | Some q =>
              match observer_callback p q isIntersecting (state w) with
              | Some res => after_call false res w
              | None => (w, [])
              end
          end
      | Click i =>
          let (st1, out) := click_entry i (state w) in (with_state st1 w, out)
      | Unmount =>
          ({| state := state w; timer := None; inflight := inflight w;
              next_id := next_id w; mounted := false |}, [ClearTimeout])
      | Respond _ _ => (w, [])
      end
  end.

Fixpoint run (p : Props) (w : World) (es : list event) : World * list effect :=
  match es with
  | [] => (w, [])
  | e :: rest =>
      let (w1, out1) := step p w e in
      let (w2, out2) := run p w1 rest in
      (w2, (out1 ++ out2)%list)
  end.

End Component.

Arguments JNull {rt}.
Arguments JBool {rt} b.
Arguments JNum {rt} n.
Arguments JStr {rt} s.
Arguments JArr {rt} items.
Arguments JObj {rt} members.
Arguments VUndefined {rt}.
Arguments VJson {rt} j.
Arguments VBuiltin {rt} name.
Arguments lookup_member {rt} p members.
Arguments get_prop {rt} j p.
Arguments json_truthy {rt} j.
Arguments truthy {rt} v.
Arguments json_to_string {rt} j.
Arguments stringify {rt} v.
Arguments text_of {rt} v.
Arguments renderable_json {rt} j.
Arguments renderable_key {rt} v.
Arguments renderable {rt} l.
Arguments fetchEntries_call {rt} p cursor0 searchValue newSearch st.
Arguments after_call {rt} newSearch res w.
Arguments page_stored {rt} newSearch r st.
Arguments to_string {rt} v.
Arguments js_or {rt} a b.
Arguments same_value {rt} a b.
Arguments key {rt} d.
Arguments Build_DatastoreEntry {rt} key.
Arguments entries {rt} s.
Arguments searchQuery {rt} s.
Arguments isLoading {rt} s.
Arguments cursor {rt} s.
Arguments hasMore {rt} s.
Arguments Build_State {rt} entries searchQuery isLoading cursor hasMore.
Arguments empty_string {rt}.
Arguments initial_state {rt}.
Arguments setEntries {rt} f st.
Arguments setSearchQuery {rt} q st.
Arguments setIsLoading {rt} b st.
Arguments setCursor {rt} c st.
Arguments setHasMore {rt} b st.
Arguments Fetch {rt} r.
Arguments Toast {rt} message severity duration.
Arguments ConsoleLog {rt} label arg.
Arguments OnSelectEntry {rt} arg.
Arguments SetTimeout {rt} delay.
Arguments ClearTimeout {rt}.
Arguments FetchRejected {rt} t.
Arguments JsonRejected {rt} t.
Arguments Parsed {rt} data.
Arguments ret {rt A} a _.
Arguments throw {rt A} t _.
Arguments bind {rt A B} m k _.
Arguments update {rt} f _.
Arguments read {rt} j p _.
Arguments map_items {rt} items _.
Arguments formattedEntries {rt} keys _.
Arguments fetchEntries_request {rt} p cursor0 searchValue newSearch.
Arguments fetchEntries_start {rt} p cursor0 searchValue newSearch st.
Arguments fetchEntries_try {rt} newSearch r _.
Arguments fetchEntries_catch {rt} t.
Arguments fetchEntries_finish {rt} newSearch r st.
Arguments fetchEntries {rt} p searchValue newSearch r st.
Arguments handleEntrySelect {rt} k.
Arguments click_entry {rt} i st.
Arguments sentinel {rt} st.
Arguments observerTarget {rt} node st.
Arguments observer_callback {rt} p q isIntersecting st.
Arguments datastore_effect {rt} p st.
Arguments timer_callback {rt} p q st.
Arguments onChange {rt} p v st.
Arguments state {rt} w.
Arguments timer {rt} w.
Arguments inflight {rt} w.
Arguments next_id {rt} w.
Arguments mounted {rt} w.
Arguments Build_World {rt} state timer inflight next_id mounted.
Arguments Change {rt} v.
Arguments Elapse {rt} ms.
Arguments Respond {rt} id r.
Arguments Intersect {rt} isIntersecting.
Arguments Click {rt} i.
Arguments Unmount {rt}.
Arguments with_state {rt} st w.
Arguments with_timer {rt} t w.
Arguments started {rt} newSearch st w.
Arguments cursor_replaced {rt} newSearch r st.
Arguments rerender {rt} p cursor_changed before w.
Arguments mount {rt} p.
Arguments step {rt} p w e.
Arguments run {rt} p w es.

(** ** A concrete runtime, for running the model *)

(** Integers stand in for the numbers; the [TypeError] texts are V8's. *)
Definition sample_runtime : Runtime :=
  {| number := Z;
     number_truthy := fun n => negb (n =? 0)%Z;
     number_to_string := fun n => NilZero.string_of_int (Z.to_int n);
     number_same := Z.eqb;
     null_read_message := fun p =>
       "Cannot read properties of null (reading '" ++ p ++ "')";
     not_callable_message := fun f => "(intermediate value)." ++ f ++ " is not a function";
     to_primitive_message := "Cannot convert object to primitive value" |}.

Definition sample_props : Props :=
  {| universeId := "42"; apiToken := "secret"; datastoreName := "Players";
     selectedEntryKey := "" |}.

(** ** Vocabulary of the properties *)

(** No toast went out. *)
Definition quiet {rt} (out : list (effect rt)) : bool :=
  forallb (fun e => match e with Toast _ _ _ => false | _ => true end) out.

Definition toasts {rt} (out : list (effect rt)) : list (string * string * Z) :=
  flat_map (fun e => match e with Toast m s d => [(m, s, d)] | _ => [] end) out.

Definition fetches {rt} (out : list (effect rt)) : list Request :=
  flat_map (fun e => match e with Fetch r => [r] | _ => [] end) out.

Definition selections {rt} (out : list (effect rt)) : list (value rt) :=
  flat_map (fun e => match e with OnSelectEntry k => [k] | _ => [] end) out.

(** The items of a body's [keys]: those of the array, none when the field
    is missing or falsy. *)
Definition page_items {rt} (data : json rt) (items : list (json rt)) : Prop :=
  match get_prop data "keys" with
  | Some (VJson (JArr l)) => items = l
  | Some v => truthy v = false /\ items = []
  | None => False
  end.

(** [e] is what item [k] is mapped to. *)
Definition entry_of {rt} (k : json rt) (e : DatastoreEntry rt) : Prop :=
  get_prop k "key" = Some (key e).

Definition str {rt} (s : string) : value rt := VJson (JStr s).

Definition entry {rt} (s : string) : DatastoreEntry rt := {| key := str s |}.

(** The two bodies the specification names. *)
Definition body_a_b {rt} : json rt :=
  JObj [("keys", JArr [JObj [("key", JStr "a")]; JObj [("key", JStr "b")]]);
        ("nextPageCursor", JStr "")].

Definition body_not_found {rt} : json rt := JObj [("error", JStr "not found")].

(** A first page with a continuation, and a state that already lists
    something. *)
Definition body_page_one : json sample_runtime :=
  JObj [("keys", JArr [JObj [("key", JStr "k1")]; JObj [("key", JStr "k2")]]);
        ("nextPageCursor", JStr "c1")].

Definition state_one : State sample_runtime :=
  {| entries := [entry "k1"; entry "k2"]; searchQuery := "k"; isLoading := false;
     cursor := str "c1"; hasMore := true |}.

(** A body whose [error] member is there but empty. *)
Definition body_error_empty : json sample_runtime := JObj [("error", JStr "")].

(** What went wrong in a call, if the awaits rejected or the body carries a
    truthy [error]. *)
Definition reported {rt} (r : response rt) : option string :=
  match r with
  | FetchRejected t | JsonRejected t => Some (errorMessage t)
  | Parsed data =>
      match get_prop data "error" with
      | Some err =>
          if truthy err then
            Some (match stringify err with
                  | inr message => message
                  | inl t => errorMessage t
                  end)
          else None
      | None => None
      end
  end.

(** A body that parses to a page: no truthy [error], and [page] is what its
    items are mapped to. *)
Definition maps_to {rt} (data : json rt) (page : list (DatastoreEntry rt)) : Prop :=
  (exists err, get_prop data "error" = Some err /\ truthy err = false) /\
  exists items, page_items data items /\ Forall2 entry_of items page.

(** A body that names a next page. *)
Definition has_next {rt} (data : json rt) : Prop :=
  exists next, get_prop data "nextPageCursor" = Some next /\ truthy next = true.

(** Calls made one after the other, each answered before the next is made:
    continuation calls, and a session that opens with a fresh search. *)
Fixpoint continue_session {rt} (p : Props) (q : string) (bodies : list (json rt))
    (st : State rt) : State rt :=
  match bodies with
  | [] => st
  | data :: rest =>
      continue_session p q rest (fst (fetchEntries p q false (Parsed data) st))
  end.

Definition session {rt} (p : Props) (q : string) (bodies : list (json rt))
    (st : State rt) : State rt :=
  match bodies with
  | [] => st
  | data :: rest =>
      continue_session p q rest (fst (fetchEntries p q true (Parsed data) st))
  end.

Definition body_page_two : json sample_runtime :=
  JObj [("keys", JArr [JObj [("key", JStr "k3")]]); ("nextPageCursor", JStr "c2")].

(** [URLSearchParams.get]: the first value under a name. *)
Fixpoint param (name : string) (ps : list (string * string)) : option string :=
  match ps with
  | [] => None
  | (k, v) :: rest => if String.eqb k name then Some v else param name rest
  end.

(** The cursor a call sends. *)
Definition sent_cursor {rt} (newSearch : bool) (st : State rt) : value rt :=
  if newSearch then str "" else cursor st.

(** A body with neither [keys] nor [error]. *)
Definition body_cursor_only : json sample_runtime := JObj [("nextPageCursor", JStr "c9")].

Definition is_intersect {rt} (e : event rt) : bool :=
  match e with Intersect _ => true | _ => false end.

(** A mounted component showing [st], nothing pending. *)
Definition idle_world {rt} (st : State rt) : World rt :=
  {| state := st; timer := None; inflight := []; next_id := 0; mounted := true |}.

(** [state_one] after its last page. *)
Definition state_exhausted : State sample_runtime :=
  setHasMore false (setCursor (str "") state_one).

(** Props before a datastore has been chosen. *)
Definition props_no_datastore : Props :=
  {| universeId := "42"; apiToken := "secret"; datastoreName := "";
     selectedEntryKey := "" |}.

(** ** What is rendered *)

(** Lines 120-127 and 140-146, as far as they depend on props and state:
    the input's value, the sentinel and the spinner inside it.  Of the
    buttons the model keeps only whether React can render them,
    [renderable]. *)
Record View := {
  input_value : string;
  sentinel_shown : bool;
  spinner_shown : bool
}.

Definition render {rt} (p : Props) (st : State rt) : View :=
  {| input_value := searchQuery st;
     sentinel_shown := hasMore st;
     spinner_shown := hasMore st && isLoading st |}.

(** A cursor that [new URLSearchParams] can take: a falsy one is left out,
    a truthy one must have a text. *)
Definition sendable {rt} (c : value rt) : bool :=
  negb (truthy c) ||
  match to_string c with Some _ => true | None => false end.

(** A body whose [nextPageCursor] is an object with a [toString] member,
    and the state in which it leaves a freshly mounted list. *)
Definition body_object_cursor : json sample_runtime :=
  JObj [("keys", JArr [JObj [("key", JStr "k1")]]);
        ("nextPageCursor", JObj [("toString", JNum (rt:=sample_runtime) 1%Z)])].

Definition state_object_cursor : State sample_runtime :=
  fst (fetchEntries sample_props "" true (Parsed body_object_cursor) initial_state).

(** A body whose [error] is an object with a [toString] member. *)
Definition body_error_object : json sample_runtime :=
  JObj [("error", JObj [("toString", JNum (rt:=sample_runtime) 1%Z)])].

(** A last page: one key, no cursor. *)
Definition body_last_page : json sample_runtime :=
  JObj [("keys", JArr [JObj [("key", JStr "k9")]]); ("nextPageCursor", JStr "")].

(** An answer that names a next page. *)
Definition names_next {rt} (e : event rt) : bool :=
  match e with
  | Respond _ (Parsed data) =>
      match get_prop data "nextPageCursor" with
      | Some next => truthy next
      | None => false
      end
  | _ => false
  end.

(** The stored cursor is the empty string or something truthy. *)
Definition cursor_ok {rt} (st : State rt) : Prop :=
  cursor st = str "" \/ truthy (cursor st) = true.

Definition is_respond {rt} (e : event rt) : bool :=
  match e with Respond _ _ => true | _ => false end.

Definition is_change {rt} (e : event rt) : bool :=
  match e with Change _ => true | _ => false end.

(** The one toast of a call that stopped at an engine [TypeError]. *)
Definition type_error_toast (message : string) : list (string * string * Z) :=
  [("Error: " ++ message, "error", 3000%Z)].

Definition is_array {rt} (v : value rt) : bool :=
  match v with VJson (JArr _) => true | _ => false end.

(** A body whose second item is [null]. *)
Definition body_null_item : json sample_runtime :=
  JObj [("keys", JArr [JObj [("key", JStr "k3")]; JNull]); ("nextPageCursor", JStr "c2")].

(** A body whose [keys] is a string. *)
Definition body_keys_string : json sample_runtime :=
  JObj [("keys", JStr "k3"); ("nextPageCursor", JStr "c2")].

(** [state_one] with two continuation calls in flight. *)
Definition loading_world : World sample_runtime :=
  {| state := setIsLoading true state_one; timer := None;
     inflight := [(0, false); (1, false)]; next_id := 2; mounted := true |}.

Definition is_visible {rt} (e : event rt) : bool :=
  match e with Intersect true => true | _ => false end.

(** A request made for the props at hand. *)
Definition for_props (p : Props) (r : Request) : Prop :=
  datastore r = datastoreName p /\
  param "universeId" (params r) = Some (universeId p) /\
  param "apiToken" (params r) = Some (apiToken p).

(** A list mounted for [sample_props] whose first search was answered by
    the last page while the search started by the debounce timer was still
    in flight; and the same list after that second search, and the one the
    datastore effect started on its new cursor, were answered by
    [body_page_one].  Nothing was typed, and the props are the same. *)
Definition world_last_page : World sample_runtime :=
  fst (run sample_props (fst (mount sample_props))
         [Elapse 500%Z; Respond 0 (Parsed body_last_page)]).

Definition world_revived : World sample_runtime :=
  fst (run sample_props world_last_page
         [Intersect true; Respond 1 (Parsed body_page_one);
          Respond 2 (Parsed body_page_one)]).

(** A body whose second key is a plain object. *)
Definition body_object_key : json sample_runtime :=
  JObj [("keys", JArr [JObj [("key", JStr "k3")];
                       JObj [("key", JObj [("id", JStr "k4")])]]);
        ("nextPageCursor", JStr "c2")].

(** ** How the [try] block ends *)

Section TryBlock.

Context {rt : Runtime}.

Lemma get_prop_null (j : json rt) (p : string) :
  get_prop j p = None -> j = JNull.
Proof.
  destruct j; simpl; intros H; try reflexivity; try discriminate.
  - destruct (String.eqb p "keys"); discriminate.
  - destruct (lookup_member p members); discriminate.
Qed.

Lemma map_items_frame (items : list (json rt)) (st : State rt) :
  fst (map_items items st) = st.
Proof.
  induction items as [|k rest IH]; simpl; [reflexivity|].
  unfold bind, read. destruct (get_prop k "key"); simpl; [|reflexivity].
  specialize IH. destruct (map_items rest st) as [st1 [t|tl]]; simpl in *; assumption.
Qed.

Lemma map_items_ok (items : list (json rt)) (st st' : State rt) page :
  map_items items st = (st', inr page) -> Forall2 entry_of items page.
Proof.
  revert st' page. induction items as [|k rest IH]; simpl; intros st' page H.
  - inversion H. constructor.
  - unfold bind, read in H. destruct (get_prop k "key") as [v|] eqn:Hk; simpl in H; [|discriminate].
    destruct (map_items rest st) as [st1 [t|tl]] eqn:Hrest; [discriminate|].
    inversion H; subst. constructor.
    + exact Hk.
    + eapply IH. reflexivity.
Qed.

Lemma formattedEntries_frame (keys : value rt) (st : State rt) :
  fst (formattedEntries keys st) = st.
Proof.
  unfold formattedEntries.
  destruct (js_or keys (VJson (JArr []))) as [|[]|]; try reflexivity.
  apply map_items_frame.
Qed.

Lemma formattedEntries_ok (data : json rt) keys (st st' : State rt) page :
  get_prop data "keys" = Some keys ->
  formattedEntries keys st = (st', inr page) ->
  exists items, page_items data items /\ Forall2 entry_of items page.
Proof.
  intros Hk H. unfold formattedEntries, js_or in H. unfold page_items. rewrite Hk.
  destruct (truthy keys) eqn:T.
  - destruct keys as [|[]|]; try discriminate.
    exists items. split; [reflexivity|]. eapply map_items_ok; eassumption.
  - simpl in H. inversion H; subst. exists []. split; [|constructor].
    destruct keys as [|[]|]; simpl in T; try discriminate; split; auto.
Qed.

(** Either the block stops at a throw with the state as it found it, or it
    runs through its three setters. *)
Lemma fetchEntries_try_cases (newSearch : bool) (r : response rt) (st : State rt) :
  (exists t, fetchEntries_try newSearch r st = (st, inl t)) \/
  (exists data err items page next,
      r = Parsed data /\
      get_prop data "error" = Some err /\ truthy err = false /\
      page_items data items /\ Forall2 entry_of items page /\
      get_prop data "nextPageCursor" = Some next /\
      fetchEntries_try newSearch r st =
        (setHasMore (truthy next)
           (setCursor (js_or next empty_string)
              (setEntries (fun prev => if newSearch then page else (prev ++ page)%list) st)),
         inr tt)).
Proof.
  destruct r as [t|t|data]; simpl; try (left; eexists; reflexivity).
  unfold bind, read.
  destruct (get_prop data "error") as [err|] eqn:He; [|left; eexists; reflexivity].
  simpl. destruct (truthy err) eqn:Te;
    [destruct (stringify err); left; eexists; reflexivity|]. simpl.
  destruct (get_prop data "keys") as [keys|] eqn:Hk; [|left; eexists; reflexivity].
  simpl. pose proof (formattedEntries_frame keys st) as F.
  destruct (formattedEntries keys st) as [st1 [t|page]] eqn:Hf; simpl in F; subst st1;
    [left; eexists; reflexivity|].
  destruct (formattedEntries_ok data keys st st page Hk Hf) as [items [Hi Hp]].
  destruct (get_prop data "nextPageCursor") as [next|] eqn:Hn.
  - right. exists data, err, items, page, next. simpl. repeat split; auto.
  - apply get_prop_null in Hn. subst data. discriminate.
Qed.

End TryBlock.

(** ** One call of [fetchEntries] *)

Section OneCall.

Context {rt : Runtime}.

Lemma fetchEntries_unfold (p : Props) q newSearch (r : response rt) st :
  fetchEntries p q newSearch r st =
    match fetchEntries_try newSearch r (setIsLoading true st) with
    | (st1, inl t) =>
        (setIsLoading false st1,
         [Fetch (fetchEntries_request p (cursor st) q newSearch);
          Toast ("Error: " ++ errorMessage t) "error" 3000%Z])
    | (st1, inr _) =>
        (setIsLoading false st1,
         [Fetch (fetchEntries_request p (cursor st) q newSearch)])
    end.
Proof.
  unfold fetchEntries, fetchEntries_start, fetchEntries_finish, fetchEntries_catch.
  cbn [fst].
  destruct (fetchEntries_try newSearch r (setIsLoading true st)) as [st1 [t|u]];
    reflexivity.
Qed.

Lemma truthy_not_empty (v : value rt) : truthy v = true -> v <> str "".
Proof. intros T E. subst v. discriminate. Qed.

(** C1. A call that ends without a toast replaces the list by the page's
    mapped keys on a fresh search and appends them otherwise; the stored
    cursor is the body's [nextPageCursor] when that is a string, the empty
    string when it is missing or [null], and [hasMore] holds exactly when
    the stored cursor is not the empty string.  The body
    [{"keys":[{"key":"a"},{"key":"b"}],"nextPageCursor":""}] on a fresh
    search leaves entries [a,b], no more pages and an empty cursor. *)
Theorem fetchEntries_success :
  (forall (p : Props) q newSearch (data : json rt) st,
      quiet (snd (fetchEntries p q newSearch (Parsed data) st)) = true ->
      let st' := fst (fetchEntries p q newSearch (Parsed data) st) in
      (exists items page,
          page_items data items /\ Forall2 entry_of items page /\
          entries st' = if newSearch then page else (entries st ++ page)%list) /\
      (exists next,
          get_prop data "nextPageCursor" = Some next /\
          cursor st' = js_or next (str "") /\ hasMore st' = truthy next) /\
      (forall s, get_prop data "nextPageCursor" = Some (str s) -> cursor st' = str s) /\
      (get_prop data "nextPageCursor" = Some VUndefined \/
       get_prop data "nextPageCursor" = Some (VJson JNull) -> cursor st' = str "") /\
      (hasMore st' = true <-> cursor st' <> str "")) /\
  (forall (p : Props) q (st : State rt),
      let st' := fst (fetchEntries p q true (Parsed body_a_b) st) in
      entries st' = [entry "a"; entry "b"] /\ hasMore st' = false /\
      cursor st' = str "").
Proof.
  split; [|intros; repeat split; reflexivity].
  intros p q newSearch data st Q st'. subst st'. revert Q.
  rewrite fetchEntries_unfold.
  destruct (fetchEntries_try_cases newSearch (Parsed data) (setIsLoading true st))
    as [[t E]|(d & err & items & page & next & Hd & He & Te & Hi & Hp & Hn & E)];
    rewrite E; simpl; intros Q; [discriminate|].
  inversion Hd; subst d. split; [|split; [|split; [|split]]].
  - exists items, page. repeat split; assumption.
  - exists next. repeat split; assumption.
  - intros s Hs. rewrite Hn in Hs. inversion Hs; subst next.
    unfold js_or. destruct (truthy (str s)) eqn:T; [reflexivity|].
    unfold str in *. simpl in T. destruct (String.eqb_spec s ""); [subst; reflexivity|discriminate].
  - intros [H|H]; rewrite Hn in H; inversion H; subst next; reflexivity.
  - unfold js_or. destruct (truthy next) eqn:T.
    + split; [intros _; apply truthy_not_empty; exact T|reflexivity].
    + split; [discriminate|]. intros H. exfalso. apply H. reflexivity.
Qed.

End OneCall.

(** A fresh search from the initial state, answered by [body_page_one]. *)
Lemma fetchEntries_success_witness :
  quiet (snd (fetchEntries sample_props "" true (Parsed body_page_one) initial_state)) = true /\
  (hasMore (fst (fetchEntries sample_props "" true (Parsed body_page_one) initial_state)) = true <->
   cursor (fst (fetchEntries sample_props "" true (Parsed body_page_one) initial_state)) <> str "").
Proof.
  split; [reflexivity|].
  apply (proj1 (@fetchEntries_success sample_runtime) sample_props "" true body_page_one
           initial_state).
  reflexivity.
Defined.

Section Failure.

Context {rt : Runtime}.

Lemma fetchEntries_try_reported newSearch (r : response rt) st msg :
  reported r = Some msg ->
  exists t, fetchEntries_try newSearch r st = (st, inl t) /\ errorMessage t = msg.
Proof.
  destruct r as [t|t|data]; simpl; intros H.
  - inversion H. eexists; split; reflexivity.
  - inversion H. eexists; split; reflexivity.
  - unfold bind, read. destruct (get_prop data "error") as [err|]; [|discriminate].
    simpl. destruct (truthy err); [|discriminate]. inversion H.
    destruct (stringify err) as [t|message]; eexists; split; reflexivity.
Qed.

(** C2, as the code has it.  When the awaits reject, or the body's [error]
    is truthy, exactly one toast goes out, "Error: " followed by the
    message, severity "error", duration 3000: the message of the rejection,
    "Unknown error" for a rejection that is no [Error], the [error] itself
    when it is a string, its text otherwise, and the engine's [TypeError]
    message when it has no text.  Every call that ends in a toast leaves
    entries, cursor, hasMore and searchQuery as they were and isLoading
    false.  The body [{"error":"not found"}] gives "Error: not found". *)
Theorem fetchEntries_failure :
  (forall (p : Props) q newSearch (r : response rt) st msg,
      reported r = Some msg ->
      toasts (snd (fetchEntries p q newSearch r st)) = [("Error: " ++ msg, "error", 3000%Z)]) /\
  (forall (p : Props) q newSearch (st : State rt) m,
      toasts (snd (fetchEntries p q newSearch (FetchRejected (ErrorObject m)) st))
        = [("Error: " ++ m, "error", 3000%Z)] /\
      toasts (snd (fetchEntries p q newSearch (JsonRejected (ErrorObject m)) st))
        = [("Error: " ++ m, "error", 3000%Z)] /\
      toasts (snd (fetchEntries p q newSearch (FetchRejected NonError) st))
        = [("Error: Unknown error", "error", 3000%Z)]) /\
  (forall (p : Props) q newSearch (data : json rt) st s,
      get_prop data "error" = Some (str s) -> s <> "" ->
      toasts (snd (fetchEntries p q newSearch (Parsed data) st))
        = [("Error: " ++ s, "error", 3000%Z)]) /\
  (forall (p : Props) q newSearch (data : json rt) st err,
      get_prop data "error" = Some err -> truthy err = true ->
      toasts (snd (fetchEntries p q newSearch (Parsed data) st))
        = [("Error: " ++ match to_string err with
                         | Some text => text
                         | None => to_primitive_message rt
                         end, "error", 3000%Z)]) /\
  (forall (p : Props) q newSearch (r : response rt) st,
      quiet (snd (fetchEntries p q newSearch r st)) = false ->
      let st' := fst (fetchEntries p q newSearch r st) in
      (exists msg, toasts (snd (fetchEntries p q newSearch r st))
                   = [("Error: " ++ msg, "error", 3000%Z)]) /\
      entries st' = entries st /\ cursor st' = cursor st /\
      hasMore st' = hasMore st /\ searchQuery st' = searchQuery st /\
      isLoading st' = false) /\
  (forall (p : Props) q newSearch (st : State rt),
      toasts (snd (fetchEntries p q newSearch (Parsed body_not_found) st))
        = [("Error: not found", "error", 3000%Z)] /\
      entries (fst (fetchEntries p q newSearch (Parsed body_not_found) st)) = entries st).
Proof.
  assert (R : forall (p : Props) q newSearch (r : response rt) st msg,
             reported r = Some msg ->
             toasts (snd (fetchEntries p q newSearch r st))
               = [("Error: " ++ msg, "error", 3000%Z)]).
  { intros p q newSearch r st msg H. rewrite fetchEntries_unfold.
    destruct (fetchEntries_try_reported newSearch r (setIsLoading true st) msg H)
      as [t [E M]].
    rewrite E. simpl. rewrite M. reflexivity. }
  split; [exact R|]. split; [|split; [|split; [|split]]].
  - intros. repeat split; apply R; reflexivity.
  - intros p q newSearch data st s He Hs. apply R. simpl. rewrite He.
    unfold str. simpl. destruct (String.eqb_spec s ""); [contradiction|reflexivity].
  - intros p q newSearch data st err He Te. apply R. simpl. rewrite He, Te.
    unfold stringify. destruct (to_string err); reflexivity.
  - intros p q newSearch r st. rewrite fetchEntries_unfold.
    destruct (fetchEntries_try_cases newSearch r (setIsLoading true st))
      as [[t E]|(d & err & items & page & next & Hd & He & Te & Hi & Hp & Hn & E)];
      rewrite E; simpl; intros Q; [|discriminate].
    split; [eexists; reflexivity|]. repeat split; reflexivity.
  - intros. split; reflexivity.
Qed.

End Failure.

(** A rejected [fetch] while [state_one] is on screen. *)
Lemma fetchEntries_failure_witness :
  reported (rt:=sample_runtime) (FetchRejected (ErrorObject "Failed to fetch"))
    = Some "Failed to fetch" /\
  toasts (snd (fetchEntries sample_props "k" false
                 (FetchRejected (ErrorObject "Failed to fetch")) state_one))
    = [("Error: Failed to fetch", "error", 3000%Z)].
Proof.
  split; [reflexivity|].
  apply (proj1 (@fetchEntries_failure sample_runtime) sample_props "k" false
           (FetchRejected (ErrorObject "Failed to fetch")) state_one "Failed to fetch").
  reflexivity.
Defined.

(** The body [{"error":""}] has an [error] member, yet a fresh search
    answered by it raises no toast and empties the list. *)
Lemma error_member_empty_counterexample :
  get_prop body_error_empty "error" = Some (str "") /\
  toasts (snd (fetchEntries sample_props "k" true (Parsed body_error_empty) state_one)) = [] /\
  entries state_one = [entry "k1"; entry "k2"] /\
  entries (fst (fetchEntries sample_props "k" true (Parsed body_error_empty) state_one)) = [] /\
  cursor (fst (fetchEntries sample_props "k" true (Parsed body_error_empty) state_one))
    <> cursor state_one /\
  hasMore (fst (fetchEntries sample_props "k" true (Parsed body_error_empty) state_one))
    <> hasMore state_one.
Proof.
  repeat split; try reflexivity; discriminate.
Qed.

(** ** Sessions of successive pages *)

Section Sessions.

Context {rt : Runtime}.

Lemma map_items_complete (items : list (json rt)) page (st : State rt) :
  Forall2 entry_of items page -> map_items items st = (st, inr page).
Proof.
  induction 1 as [|k e items page Hk _ IH]; simpl; [reflexivity|].
  unfold bind, read. unfold entry_of in Hk. rewrite Hk. simpl. rewrite IH.
  destruct e. reflexivity.
Qed.

Lemma fetchEntries_try_complete newSearch (data : json rt) page next st :
  maps_to data page ->
  get_prop data "nextPageCursor" = Some next ->
  fetchEntries_try newSearch (Parsed data) st =
    (setHasMore (truthy next)
       (setCursor (js_or next empty_string)
          (setEntries (fun prev => if newSearch then page else (prev ++ page)%list) st)),
     inr tt).
Proof.
  intros [[err [He Te]] [items [Hi Hp]]] Hn. simpl. unfold bind, read.
  rewrite He. simpl. rewrite Te. simpl.
  unfold page_items in Hi.
  destruct (get_prop data "keys") as [keys|] eqn:Hk; [|contradiction]. simpl.
  assert (F : formattedEntries keys st = (st, inr page)).
  { unfold formattedEntries, js_or.
    destruct keys as [|j|name].
    - destruct Hi as [_ ->]. inversion Hp. reflexivity.
    - destruct j as [| | | |l|];
        [destruct Hi as [T ->]; rewrite T; inversion Hp; reflexivity ..
        |subst items; simpl; apply map_items_complete; exact Hp
        |destruct Hi as [T _]; discriminate].
    - destruct Hi as [T _]. discriminate. }
  rewrite F. rewrite Hn. reflexivity.
Qed.

Lemma fetchEntries_page (p : Props) q newSearch (data : json rt) page st :
  maps_to data page -> has_next data ->
  entries (fst (fetchEntries p q newSearch (Parsed data) st))
    = (if newSearch then page else (entries st ++ page)%list) /\
  hasMore (fst (fetchEntries p q newSearch (Parsed data) st)) = true.
Proof.
  intros Hm [next [Hn T]]. rewrite fetchEntries_unfold.
  rewrite (fetchEntries_try_complete newSearch data page next _ Hm Hn).
  simpl. rewrite T. split; reflexivity.
Qed.

Lemma continue_session_entries (p : Props) q (bodies : list (json rt)) pages st :
  Forall2 maps_to bodies pages -> Forall has_next bodies ->
  entries (continue_session p q bodies st) = (entries st ++ List.concat pages)%list /\
  (hasMore st = true -> hasMore (continue_session p q bodies st) = true).
Proof.
  intros H. revert st. induction H as [|data page bodies pages Hm _ IH]; intros st Hn.
  - simpl. rewrite app_nil_r. split; auto.
  - inversion Hn as [|? ? Hd Hrest]; subst. simpl.
    destruct (fetchEntries_page p q false data page st Hm Hd) as [E M].
    destruct (IH (fst (fetchEntries p q false (Parsed data) st)) Hrest) as [E' M'].
    rewrite E', E, app_assoc. split; [reflexivity|]. intros _. apply M'. exact M.
Qed.

Lemma Forall2_firstn {A B} (R : A -> B -> Prop) n l l' :
  Forall2 R l l' -> Forall2 R (firstn n l) (firstn n l').
Proof.
  intros H. revert n. induction H; intros [|n]; simpl; constructor; auto.
Qed.

Lemma Forall_firstn' {A} (P : A -> Prop) n l :
  Forall P l -> Forall P (firstn n l).
Proof.
  intros H. revert n. induction H; intros [|n]; simpl; constructor; auto.
Qed.

(** C3. After the [n]-th call of a session whose answers all parse to pages
    and name a next page, the list is the pages [1..n] one after the other
    and [hasMore] is true. *)
Theorem session_accumulates (p : Props) q (bodies : list (json rt)) pages st n :
  Forall2 maps_to bodies pages ->
  Forall has_next bodies ->
  0 < n <= List.length bodies ->
  entries (session p q (firstn n bodies) st) = List.concat (firstn n pages) /\
  hasMore (session p q (firstn n bodies) st) = true.
Proof.
  intros Hm Hn [Hpos Hle].
  pose proof (Forall2_firstn maps_to n _ _ Hm) as Hm'.
  pose proof (Forall_firstn' has_next n _ Hn) as Hn'.
  destruct n as [|n]; [lia|].
  destruct bodies as [|data rest]; [simpl in Hle; lia|].
  destruct pages as [|page pages]; [inversion Hm|].
  simpl in *. inversion Hm'; subst. inversion Hn'; subst.
  destruct (fetchEntries_page p q true data page st) as [E M]; auto.
  destruct (continue_session_entries p q (firstn n rest) (firstn n pages)
              (fst (fetchEntries p q true (Parsed data) st))) as [E' M']; auto.
  rewrite E', E. split; [reflexivity|]. apply M'. exact M.
Qed.

End Sessions.

(** Two pages from the initial state. *)
Lemma session_accumulates_witness :
  entries (session sample_props "k" [body_page_one; body_page_two] initial_state)
    = [entry "k1"; entry "k2"; entry "k3"] /\
  hasMore (session sample_props "k" [body_page_one; body_page_two] initial_state) = true.
Proof.
  apply (@session_accumulates sample_runtime sample_props "k"
           [body_page_one; body_page_two]
           [[entry "k1"; entry "k2"]; [entry "k3"]] initial_state 2).
  - repeat constructor.
    + exists VUndefined. split; reflexivity.
    + eexists. split; [reflexivity|]. repeat constructor.
    + exists VUndefined. split; reflexivity.
    + eexists. split; [reflexivity|]. repeat constructor.
  - repeat constructor; eexists; split; reflexivity.
  - simpl. lia.
Defined.

(** ** The request of a call *)

Section Requests.

Context {rt : Runtime}.

Lemma sendable_string (s : string) : sendable (rt:=rt) (str s) = true.
Proof. unfold sendable, str. simpl. apply orb_true_r. Qed.

(** C4, as the code has it.  A call whose cursor to send, empty on a fresh
    search and the stored one otherwise, is falsy or has a text makes one
    request, for the datastore of the props, with [universeId], [apiToken]
    and [prefix]; its [cursor] parameter is absent when that cursor is
    falsy, and is its text when it is not; for a string cursor it is absent
    when the string is empty and is the string otherwise.  A fresh search
    and a call with a string stored are always such calls. *)
Theorem fetchEntries_sends :
  (forall (p : Props) q newSearch (st : State rt),
      sendable (sent_cursor newSearch st) = true ->
      let req := fetchEntries_request p (cursor st) q newSearch in
      fetchEntries_call p (cursor st) q newSearch st
        = (setIsLoading true st, [Fetch req], true) /\
      datastore req = datastoreName p /\
      param "universeId" (params req) = Some (universeId p) /\
      param "apiToken" (params req) = Some (apiToken p) /\
      param "prefix" (params req) = Some q /\
      map fst (params req) =
        (["universeId"; "apiToken"; "prefix"]
         ++ (if truthy (sent_cursor newSearch st) then ["cursor"] else []))%list /\
      param "cursor" (params req) =
        (if truthy (sent_cursor newSearch st)
         then to_string (sent_cursor newSearch st) else None) /\
      match sent_cursor newSearch st with
      | VJson (JStr s) =>
          param "cursor" (params req) = if String.eqb s "" then None else Some s
      | _ => True
      end) /\
  (forall (st : State rt), sendable (sent_cursor true st) = true) /\
  (forall newSearch (st : State rt) s,
      cursor st = str s -> sendable (sent_cursor newSearch st) = true).
Proof.
  split; [|split].
  - intros p q newSearch st S req. subst req.
    unfold fetchEntries_call, fetchEntries_start, fetchEntries_request, sent_cursor,
      sendable, stringify, text_of, str, empty_string in *.
    destruct newSearch; simpl in *.
    + repeat split; reflexivity.
    + destruct (truthy (cursor st)) eqn:T; simpl in *.
      * destruct (to_string (cursor st)) as [text|] eqn:E; [|discriminate].
        simpl. repeat split; try reflexivity.
        destruct (cursor st) as [|[]|]; try exact I. simpl in *.
        inversion E; subst. destruct (String.eqb text ""); [discriminate|reflexivity].
      * repeat split; try reflexivity.
        destruct (cursor st) as [|[]|]; try exact I. simpl in *.
        destruct (String.eqb s ""); [reflexivity|discriminate].
  - intros st. apply sendable_string.
  - intros newSearch st s E. unfold sent_cursor. rewrite E.
    destruct newSearch; apply sendable_string.
Qed.

End Requests.

(** A continuation call from [state_one], which holds the cursor "c1". *)
Lemma fetchEntries_sends_witness :
  fetchEntries_call sample_props (cursor state_one) "k" false state_one
    = (setIsLoading true state_one,
       [Fetch {| datastore := "Players";
                 params := [("universeId", "42"); ("apiToken", "secret");
                            ("prefix", "k"); ("cursor", "c1")] |}], true) /\
  param "cursor" (params (fetchEntries_request sample_props (cursor state_one) "k" false))
    = Some "c1".
Proof.
  destruct (proj1 (@fetchEntries_sends sample_runtime) sample_props "k" false state_one)
    as (C & _ & _ & _ & _ & _ & P & _).
  - reflexivity.
  - split; [exact C|exact P].
Defined.

(** A first answer names the cursor [{"toString":1}]; it is stored, and the
    continuation call that follows makes no request: it ends in a toast. *)
Lemma object_cursor_sends_nothing_counterexample :
  cursor state_object_cursor = VJson (JObj [("toString", JNum (rt:=sample_runtime) 1%Z)]) /\
  hasMore state_object_cursor = true /\
  fetches (snd (fst (fetchEntries_call sample_props (cursor state_object_cursor) "" false
                       state_object_cursor))) = [] /\
  toasts (snd (fst (fetchEntries_call sample_props (cursor state_object_cursor) "" false
                      state_object_cursor)))
    = [("Error: Cannot convert object to primitive value", "error", 3000%Z)].
Proof. repeat split. Qed.

(** ** The loading flag, empty pages, selection *)

Section Flags.

Context {rt : Runtime}.



(** C10. When reading [error] gives undefined and reading [keys] gives
    undefined or [null], the call raises no toast, a fresh search leaves the
    list empty, a continuation leaves it as it was, and cursor and hasMore
    follow [nextPageCursor] as on any success: a string is stored as it is
    and hasMore says whether it is non-empty; a missing or [null] one
    stores the empty string and clears hasMore. *)
Theorem fetchEntries_without_keys (p : Props) q newSearch (data : json rt) st :
  get_prop data "error" = Some VUndefined ->
  get_prop data "keys" = Some VUndefined \/ get_prop data "keys" = Some (VJson JNull) ->
  let st' := fst (fetchEntries p q newSearch (Parsed data) st) in
  toasts (snd (fetchEntries p q newSearch (Parsed data) st)) = [] /\
  entries st' = (if newSearch then [] else entries st) /\
  (forall s, get_prop data "nextPageCursor" = Some (str s) ->
             cursor st' = str s /\ hasMore st' = negb (String.eqb s "")) /\
  (get_prop data "nextPageCursor" = Some VUndefined \/
   get_prop data "nextPageCursor" = Some (VJson JNull) ->
   cursor st' = str "" /\ hasMore st' = false) /\
  exists next,
    get_prop data "nextPageCursor" = Some next /\
    cursor st' = (if truthy next then next else str "") /\ hasMore st' = truthy next.
Proof.
  intros He Hk st'. subst st'.
  assert (Hm : maps_to data []).
  { split; [exists VUndefined; split; [exact He|reflexivity]|].
    exists []. split; [|constructor]. unfold page_items.
    destruct Hk as [-> | ->]; split; reflexivity. }
  destruct (get_prop data "nextPageCursor") as [next|] eqn:Hn.
  - rewrite fetchEntries_unfold.
    rewrite (fetchEntries_try_complete newSearch data [] next _ Hm Hn). simpl.
    split; [reflexivity|]. split; [|split; [|split]].
    + destruct newSearch; [reflexivity|apply app_nil_r].
    + intros s Hs. inversion Hs; subst next. unfold js_or, str, empty_string. simpl.
      destruct (String.eqb_spec s ""); [subst; split; reflexivity|split; reflexivity].
    + intros [H|H]; inversion H; subst next; split; reflexivity.
    + exists next. repeat split; reflexivity.
  - apply get_prop_null in Hn. subst data. discriminate.
Qed.

(** C9. Clicking an entry whose key is "k1" calls [onSelectEntry] once,
    with "k1", makes no request, raises no toast and leaves the component
    as it was. *)
Theorem click_selects (p : Props) (w : World rt) i e :
  mounted w = true ->
  nth_error (entries (state w)) i = Some e ->
  key e = str "k1" ->
  selections (snd (step p w (Click i))) = [str "k1"] /\
  fetches (snd (step p w (Click i))) = [] /\
  toasts (snd (step p w (Click i))) = [] /\
  fst (click_entry i (state w)) = state w /\
  fst (step p w (Click i)) = w.
Proof.
  intros Hm Hn Hk. unfold step, click_entry. rewrite Hm, Hn. simpl. rewrite Hk.
  repeat split. destruct w; reflexivity.
Qed.

End Flags.

(** A body that carries only the cursor "c9", on a continuation call from
    [state_one], whose cursor is "c1". *)
Lemma fetchEntries_without_keys_witness :
  toasts (snd (fetchEntries sample_props "k" false (Parsed body_cursor_only) state_one)) = [] /\
  entries (fst (fetchEntries sample_props "k" false (Parsed body_cursor_only) state_one))
    = [entry "k1"; entry "k2"] /\
  cursor (fst (fetchEntries sample_props "k" false (Parsed body_cursor_only) state_one))
    = str "c9" /\
  hasMore (fst (fetchEntries sample_props "k" false (Parsed body_cursor_only) state_one))
    = true.
Proof.
  destruct (@fetchEntries_without_keys sample_runtime sample_props "k" false
              body_cursor_only state_one) as (T & E & C & _).
  - reflexivity.
  - left. reflexivity.
  - destruct (C "c9" eq_refl) as [C1 C2].
    split; [exact T|]. split; [exact E|]. split; [exact C1|exact C2].
Defined.

(** The second of two buttons, keyed "k0" and "k1". *)
Lemma click_selects_witness :
  selections
    (snd (step sample_props
            {| state := setEntries (fun _ => [entry "k0"; entry "k1"]) state_one;
               timer := None; inflight := []; next_id := 0; mounted := true |}
            (Click 1)))
    = [str "k1"].
Proof.
  apply (@click_selects sample_runtime sample_props
           {| state := setEntries (fun _ => [entry "k0"; entry "k1"]) state_one;
              timer := None; inflight := []; next_id := 0; mounted := true |}
           1 (entry "k1")); reflexivity.
Defined.

(** ** The scroll sentinel *)

Section Sentinel.

Context {rt : Runtime}.

Lemma fetchEntries_call_cases (p : Props) (c : value rt) q newSearch st :
  fetchEntries_call p c q newSearch st
    = (setIsLoading true st, [Fetch (fetchEntries_request p c q newSearch)], true) \/
  exists t, fetchEntries_call p c q newSearch st
            = (setIsLoading false (setIsLoading true st), fetchEntries_catch t, false).
Proof.
  unfold fetchEntries_call, fetchEntries_start.
  destruct newSearch; [left; reflexivity|].
  destruct (truthy c); [|left; reflexivity].
  destruct (stringify c) as [t|text];
    [right; exists t; reflexivity|left; reflexivity].
Qed.

Lemma fetchEntries_call_sendable (p : Props) (c : value rt) q (newSearch : bool) st :
  sendable (rt:=rt) (if newSearch then str "" else c) = true ->
  fetchEntries_call p c q newSearch st
    = (setIsLoading true st, [Fetch (fetchEntries_request p c q newSearch)], true).
Proof.
  unfold fetchEntries_call, fetchEntries_start, sendable, stringify, str, empty_string.
  destruct newSearch; [reflexivity|].
  destruct (truthy c); [|reflexivity]. simpl.
  destruct (to_string c); [reflexivity|discriminate].
Qed.

(** Re-running the effects can at most start a call. *)
Lemma rerender_state (p : Props) c (before : State rt) (w : World rt) :
  state (fst (rerender p c before w)) = state w \/
  state (fst (rerender p c before w)) = setIsLoading true (state w).
Proof.
  unfold rerender, datastore_effect, fetchEntries_call, fetchEntries_start, after_call.
  destruct c;
    destruct (negb (String.eqb (searchQuery before) (searchQuery (state w))));
    destruct (negb (String.eqb (datastoreName p) "")); simpl; auto.
Qed.

Lemma rerender_hasMore (p : Props) c (before : State rt) (w : World rt) :
  hasMore (state (fst (rerender p c before w))) = hasMore (state w).
Proof.
  destruct (rerender_state p c before w) as [-> | ->]; reflexivity.
Qed.

Lemma step_intersect_gated (p : Props) (w : World rt) vis :
  hasMore (state w) = false \/ isLoading (state w) = true ->
  step p w (Intersect vis) = (w, []).
Proof.
  intros H. unfold step, observerTarget, sentinel.
  destruct (mounted w); simpl; [|reflexivity].
  destruct (hasMore (state w)) eqn:Hh; [|reflexivity].
  destruct H as [H|H]; [discriminate|]. rewrite H. reflexivity.
Qed.

End Sentinel.

(** ** Search sessions *)

Section SearchSessions.

Context {rt : Runtime}.

Lemma get_prop_total (data : json rt) a b x :
  get_prop data a = Some x -> exists y, get_prop data b = Some y.
Proof.
  intros H. destruct (get_prop data b) as [y|] eqn:E; [eauto|].
  apply get_prop_null in E. subst data. discriminate.
Qed.

Lemma rerender_entries (p : Props) c (before : State rt) (w : World rt) :
  entries (state (fst (rerender p c before w))) = entries (state w).
Proof.
  destruct (rerender_state p c before w) as [-> | ->]; reflexivity.
Qed.

(** C6, as the code has it.  The step that opens a session, a change of
    the search text or the datastore effect, does not reset the list: it
    leaves it as it is.  A successful answer to a fresh search leaves the
    list equal to exactly that page, whatever was listed before, and a
    successful answer to a continuation call appends its page after what
    was listed. *)
Theorem session_replaces_on_answer :
  (forall (p : Props) (w : World rt) v,
      entries (state (fst (step p w (Change v)))) = entries (state w)) /\
  (forall (p : Props) (st : State rt),
      match datastore_effect p st with
      | Some (st', _, _) => entries st' = entries st
      | None => True
      end) /\
  (forall newSearch (data : json rt) page st,
      maps_to data page ->
      entries (fst (fetchEntries_finish newSearch (Parsed data) st))
        = (if newSearch then page else (entries st ++ page)%list)).
Proof.
  split; [|split].
  - intros p w v. unfold step. destruct (mounted w); simpl; [|reflexivity].
    unfold onChange, fetchEntries_call, fetchEntries_start, after_call. simpl.
    match goal with
    | |- context [rerender p ?c ?b ?x] =>
        pose proof (rerender_entries p c b x) as R; destruct (rerender p c b x) as [w2 out2]
    end.
    simpl in *. exact R.
  - intros p st. unfold datastore_effect, fetchEntries_call, fetchEntries_start.
    destruct (negb (String.eqb (datastoreName p) "")); [reflexivity|exact I].
  - intros newSearch data page st Hm.
    destruct Hm as [[err [He Te]] Hrest].
    destruct (get_prop_total data "error" "nextPageCursor" err He) as [next Hn].
    unfold fetchEntries_finish.
    rewrite (fetchEntries_try_complete newSearch data page next st
               (conj (ex_intro _ err (conj He Te)) Hrest) Hn).
    reflexivity.
Qed.

End SearchSessions.

(** A fresh search answered by [body_page_two] while [state_one] is
    listed. *)
Lemma session_replaces_on_answer_witness :
  entries (fst (fetchEntries_finish true (Parsed body_page_two) state_one)) = [entry "k3"].
Proof.
  apply (proj2 (proj2 (@session_replaces_on_answer sample_runtime)) true
           body_page_two [entry "k3"] state_one).
  split.
  - exists VUndefined. split; reflexivity.
  - eexists. split; [reflexivity|]. repeat constructor.
Defined.

(** Typing "x" while [state_one] is listed opens a session and empties
    nothing. *)
Lemma change_keeps_list_counterexample :
  searchQuery (state (fst (step sample_props (idle_world state_one) (Change "x")))) = "x" /\
  entries (state (fst (step sample_props (idle_world state_one) (Change "x"))))
    = [entry "k1"; entry "k2"] /\
  entries (state (fst (step sample_props (idle_world state_one) (Change "x")))) <> [].
Proof.
  repeat split; try reflexivity. discriminate.
Qed.

(** ** The search box and its debounce *)

Section Debounce.

Context {rt : Runtime}.

Lemma step_change (p : Props) (w : World rt) v :
  mounted w = true -> v <> searchQuery (state w) ->
  step p w (Change v) =
    (with_timer (Some (debounce_delay, v))
       (started true (setIsLoading true (setSearchQuery v (state w))) w),
     [Fetch (fetchEntries_request (rt:=rt) p (str "") v true); ClearTimeout;
      SetTimeout debounce_delay]).
Proof.
  intros Hm Hv. unfold step. rewrite Hm. simpl.
  unfold onChange, fetchEntries_call, fetchEntries_start, after_call, rerender. simpl.
  destruct (String.eqb_spec (searchQuery (state w)) v) as [E|_]; [congruence|].
  reflexivity.
Qed.

Lemma step_elapse_fire (p : Props) (w : World rt) remaining q ms :
  mounted w = true -> timer w = Some (remaining, q) -> (remaining <= ms)%Z ->
  step p w (Elapse ms) =
    match timer_callback p q (state w) with
    | Some res => after_call true res (with_timer None w)
    | None => (with_timer None w, [])
    end.
Proof.
  intros Hm Ht Hle. unfold step. rewrite Hm, Ht. cbn [negb].
  destruct (Z.leb_spec remaining ms) as [_|C]; [reflexivity|lia].
Qed.

Lemma step_elapse_wait (p : Props) (w : World rt) remaining q ms :
  mounted w = true -> timer w = Some (remaining, q) -> (ms < remaining)%Z ->
  step p w (Elapse ms) = (with_timer (Some ((remaining - ms)%Z, q)) w, []).
Proof.
  intros Hm Ht Hlt. unfold step. rewrite Hm, Ht. cbn [negb].
  destruct (Z.leb_spec remaining ms) as [C|_]; [lia|reflexivity].
Qed.

(** C8, as the code has it.  A change of the search text to a new value
    starts a fresh search for it at once and restarts a 500 ms timer; the
    timer is counted down by shorter waits, cleared by unmounting and
    restarted by a further change; when it expires it starts one more fresh
    search for the text, provided the datastore name is not empty. *)
Theorem search_change_debounced (p : Props) (w : World rt) v :
  mounted w = true -> v <> searchQuery (state w) ->
  let w1 := fst (step p w (Change v)) in
  let fresh := fetchEntries_request (rt:=rt) p (str "") v true in
  snd (step p w (Change v)) = [Fetch fresh; ClearTimeout; SetTimeout 500%Z] /\
  param "prefix" (params fresh) = Some v /\
  param "cursor" (params fresh) = None /\
  searchQuery (state w1) = v /\
  timer w1 = Some (500%Z, v) /\
  (forall ms, (500 <= ms)%Z ->
      fetches (snd (step p w1 (Elapse ms)))
        = (if String.eqb (datastoreName p) "" then [] else [fresh]) /\
      timer (fst (step p w1 (Elapse ms))) = None) /\
  (forall ms, (ms < 500)%Z ->
      step p w1 (Elapse ms) = (with_timer (Some ((500 - ms)%Z, v)) w1, [])) /\
  (timer (fst (step p w1 Unmount)) = None /\
   snd (step p w1 Unmount) = [ClearTimeout] /\
   forall ms, snd (step p (fst (step p w1 Unmount)) (Elapse ms)) = []) /\
  (forall v', v' <> v -> timer (fst (step p w1 (Change v'))) = Some (500%Z, v')) /\
  (datastoreName p <> "" ->
   fetches (snd (run p w [Change v; Elapse 500%Z])) = [fresh; fresh]).
Proof.
  intros Hm Hv w1 fresh. subst w1 fresh.
  rewrite (step_change p w v Hm Hv). cbn [fst snd].
  set (w1 := with_timer (Some (debounce_delay, v))
               (started true (setIsLoading true (setSearchQuery v (state w))) w)).
  assert (Hm1 : mounted w1 = true) by exact Hm.
  split; [reflexivity|]. split; [reflexivity|]. split; [reflexivity|].
  split; [reflexivity|]. split; [reflexivity|].
  split; [|split; [|split; [|split]]].
  - intros ms Hms.
    rewrite (step_elapse_fire p w1 debounce_delay v ms Hm1 eq_refl Hms).
    unfold timer_callback, fetchEntries_call, fetchEntries_start, after_call.
    destruct (String.eqb (datastoreName p) ""); simpl; split; reflexivity.
  - intros ms Hms.
    rewrite (step_elapse_wait p w1 debounce_delay v ms Hm1 eq_refl Hms). reflexivity.
  - unfold step. rewrite Hm1. cbn [negb fst snd timer mounted]. repeat split.
  - intros v' Hv'. rewrite (step_change p w1 v' Hm1); [reflexivity|].
    simpl. exact Hv'.
  - intros Hd. cbn [run]. rewrite (step_change p w v Hm Hv). fold w1.
    assert (L : (debounce_delay <= 500)%Z) by (unfold debounce_delay; lia).
    rewrite (step_elapse_fire p w1 debounce_delay v 500%Z Hm1 eq_refl L).
    unfold timer_callback, fetchEntries_call, fetchEntries_start, after_call.
    destruct (String.eqb_spec (datastoreName p) "") as [E|_]; [contradiction|].
    reflexivity.
Qed.

End Debounce.

(** Typing "x" into the freshly mounted list of [sample_props]. *)
Lemma search_change_debounced_witness :
  fetches (snd (run sample_props (fst (mount (rt:=sample_runtime) sample_props))
                  [Change "x"; Elapse 500%Z]))
    = [fetchEntries_request (rt:=sample_runtime) sample_props (str "") "x" true;
       fetchEntries_request (rt:=sample_runtime) sample_props (str "") "x" true].
Proof.
  apply (@search_change_debounced sample_runtime sample_props
           (fst (mount sample_props)) "x").
  - reflexivity.
  - discriminate.
  - discriminate.
Defined.

(** With no datastore chosen, typing "x" and waiting 500 ms makes the
    immediate request and no second one. *)
Lemma debounce_without_datastore_counterexample :
  fetches (snd (run props_no_datastore (fst (mount (rt:=sample_runtime) props_no_datastore))
                  [Change "x"; Elapse 500%Z]))
    = [fetchEntries_request (rt:=sample_runtime) props_no_datastore (str "") "x" true].
Proof. reflexivity. Qed.

(** ** Bodies of the wrong shape *)

Section WrongShape.

Context {rt : Runtime}.

Lemma map_items_null (items : list (json rt)) (st : State rt) :
  In JNull items ->
  map_items items st = (st, inl (ErrorObject (null_read_message rt "key"))).
Proof.
  induction items as [|k rest IH]; simpl; [contradiction|]. intros H.
  unfold bind, read. destruct (get_prop k "key") as [v|] eqn:Hk; [|reflexivity].
  destruct H as [H|H]; [subst k; discriminate|].
  simpl. rewrite (IH H). reflexivity.
Qed.

Lemma fetchEntries_thrown (p : Props) q newSearch (r : response rt) st t :
  fetchEntries_try newSearch r (setIsLoading true st) = (setIsLoading true st, inl t) ->
  toasts (snd (fetchEntries p q newSearch r st)) = type_error_toast (errorMessage t) /\
  entries (fst (fetchEntries p q newSearch r st)) = entries st /\
  cursor (fst (fetchEntries p q newSearch r st)) = cursor st /\
  hasMore (fst (fetchEntries p q newSearch r st)) = hasMore st.
Proof.
  intros E. rewrite fetchEntries_unfold, E. repeat split; reflexivity.
Qed.

(** A [null] where an object is read, be it the body itself or one item of
    [keys], ends the call in the engine's [TypeError] toast; not one entry
    of the page is listed, and cursor and hasMore stay. *)
Theorem null_read_rejects_page :
  (forall (p : Props) q newSearch (st : State rt),
      toasts (snd (fetchEntries p q newSearch (Parsed JNull) st))
        = type_error_toast (null_read_message rt "error") /\
      entries (fst (fetchEntries p q newSearch (Parsed JNull) st)) = entries st /\
      cursor (fst (fetchEntries p q newSearch (Parsed JNull) st)) = cursor st /\
      hasMore (fst (fetchEntries p q newSearch (Parsed JNull) st)) = hasMore st) /\
  (forall (p : Props) q newSearch (data : json rt) err items st,
      get_prop data "error" = Some err -> truthy err = false ->
      get_prop data "keys" = Some (VJson (JArr items)) ->
      In JNull items ->
      toasts (snd (fetchEntries p q newSearch (Parsed data) st))
        = type_error_toast (null_read_message rt "key") /\
      entries (fst (fetchEntries p q newSearch (Parsed data) st)) = entries st /\
      cursor (fst (fetchEntries p q newSearch (Parsed data) st)) = cursor st /\
      hasMore (fst (fetchEntries p q newSearch (Parsed data) st)) = hasMore st).
Proof.
  split.
  - intros. apply (fetchEntries_thrown p q newSearch (Parsed JNull) st
                     (ErrorObject (null_read_message rt "error"))).
    reflexivity.
  - intros p q newSearch data err items st He Te Hk Hin.
    apply (fetchEntries_thrown p q newSearch (Parsed data) st
             (ErrorObject (null_read_message rt "key"))).
    simpl. unfold bind, read. rewrite He. simpl. rewrite Te. simpl. rewrite Hk. simpl.
    unfold formattedEntries, js_or. simpl.
    rewrite (map_items_null items _ Hin). reflexivity.
Qed.

(** When [keys] is truthy and no array (a string, a number, an object, or
    the [keys] method that an array body inherits), calling its [map] ends
    the call in the engine's [TypeError] toast and the state stays. *)
Theorem keys_without_map_rejects_page (p : Props) q newSearch (data : json rt)
    err keys st :
  get_prop data "error" = Some err -> truthy err = false ->
  get_prop data "keys" = Some keys -> truthy keys = true -> is_array keys = false ->
  toasts (snd (fetchEntries p q newSearch (Parsed data) st))
    = type_error_toast (not_callable_message rt "map") /\
  entries (fst (fetchEntries p q newSearch (Parsed data) st)) = entries st /\
  cursor (fst (fetchEntries p q newSearch (Parsed data) st)) = cursor st /\
  hasMore (fst (fetchEntries p q newSearch (Parsed data) st)) = hasMore st.
Proof.
  intros He Te Hk Tk Ha.
  apply (fetchEntries_thrown p q newSearch (Parsed data) st
           (ErrorObject (not_callable_message rt "map"))).
  simpl. unfold bind, read. rewrite He. simpl. rewrite Te. simpl. rewrite Hk. simpl.
  unfold formattedEntries, js_or. rewrite Tk.
  destruct keys as [|[]|]; try discriminate; reflexivity.
Qed.

End WrongShape.

(** [body_null_item] answering a continuation call. *)
Lemma null_read_rejects_page_witness :
  toasts (snd (fetchEntries sample_props "k" false (Parsed body_null_item) state_one))
    = type_error_toast "Cannot read properties of null (reading 'key')" /\
  entries (fst (fetchEntries sample_props "k" false (Parsed body_null_item) state_one))
    = entries state_one.
Proof.
  destruct (proj2 (@null_read_rejects_page sample_runtime) sample_props "k" false
              body_null_item VUndefined
              [JObj [("key", JStr "k3")]; JNull] state_one) as [T [E _]].
  - reflexivity.
  - reflexivity.
  - reflexivity.
  - right. left. reflexivity.
  - split; [exact T|exact E].
Defined.

(** [body_keys_string] answering a fresh search. *)
Lemma keys_without_map_rejects_page_witness :
  toasts (snd (fetchEntries sample_props "k" true (Parsed body_keys_string) state_one))
    = type_error_toast "(intermediate value).map is not a function" /\
  entries (fst (fetchEntries sample_props "k" true (Parsed body_keys_string) state_one))
    = entries state_one.
Proof.
  destruct (@keys_without_map_rejects_page sample_runtime sample_props "k" true
              body_keys_string VUndefined (str "k3") state_one) as [T [E _]];
    try reflexivity.
  split; [exact T|exact E].
Defined.

(** ** From one call to the next *)

Section NextCall.

Context {rt : Runtime}.

Lemma Forall2_same_length {A B} (R : A -> B -> Prop) l l' :
  Forall2 R l l' -> List.length l = List.length l'.
Proof. induction 1; simpl; congruence. Qed.

(** A call that ends without a toast lists one entry for every item of
    [keys], whether or not the item has a [key]: nothing is dropped and
    nothing is merged. *)
Theorem success_lists_every_item (p : Props) q newSearch (data : json rt) st :
  quiet (snd (fetchEntries p q newSearch (Parsed data) st)) = true ->
  exists items,
    page_items data items /\
    List.length (entries (fst (fetchEntries p q newSearch (Parsed data) st)))
      = (if newSearch then 0 else List.length (entries st)) + List.length items.
Proof.
  rewrite fetchEntries_unfold.
  destruct (fetchEntries_try_cases newSearch (Parsed data) (setIsLoading true st))
    as [[t E]|(d & err & items & page & next & Hd & He & Te & Hi & Hp & Hn & E)];
    rewrite E; simpl; intros Q; [discriminate|].
  inversion Hd; subst d. exists items. split; [exact Hi|].
  rewrite (Forall2_same_length _ _ _ Hp).
  destruct newSearch; [reflexivity|apply length_app].
Qed.

(** The cursor a successful answer names, when it is truthy and has a
    text, is the cursor the next continuation call sends, whatever that
    call searches for; and that call does make its request. *)
Theorem received_cursor_is_sent (p : Props) q newSearch (data : json rt) page st
    next text q' :
  maps_to data page ->
  get_prop data "nextPageCursor" = Some next -> truthy next = true ->
  to_string next = Some text ->
  let st' := fst (fetchEntries p q newSearch (Parsed data) st) in
  fetchEntries_call p (cursor st') q' false st'
    = (setIsLoading true st',
       [Fetch (fetchEntries_request p (cursor st') q' false)], true) /\
  param "cursor" (params (fetchEntries_request p (cursor st') q' false)) = Some text.
Proof.
  intros Hm Hn T E st'. subst st'. rewrite fetchEntries_unfold.
  rewrite (fetchEntries_try_complete newSearch data page next _ Hm Hn). cbn [fst].
  unfold fetchEntries_call, fetchEntries_start, fetchEntries_request, stringify, text_of,
    js_or.
  rewrite T. simpl. rewrite T, E. split; reflexivity.
Qed.

(** After a call that ended in a toast, any call makes the request it would
    have made before: the failed page can be asked for again. *)
Theorem failed_call_can_be_repeated (p : Props) q newSearch (r : response rt) st q' b' :
  quiet (snd (fetchEntries p q newSearch r st)) = false ->
  fetchEntries_request p (cursor (fst (fetchEntries p q newSearch r st))) q' b'
    = fetchEntries_request p (cursor st) q' b'.
Proof.
  rewrite fetchEntries_unfold.
  destruct (fetchEntries_try_cases newSearch r (setIsLoading true st))
    as [[t E]|(d & err & items & page & next & Hd & He & Te & Hi & Hp & Hn & E)];
    rewrite E; simpl; intros Q; [reflexivity|discriminate].
Qed.

End NextCall.

(** [body_page_one] answering the first search. *)
Lemma success_lists_every_item_witness :
  exists items,
    page_items body_page_one items /\
    List.length (entries (fst (fetchEntries sample_props "" true (Parsed body_page_one)
                                 initial_state)))
      = 0 + List.length items.
Proof.
  apply (@success_lists_every_item sample_runtime sample_props "" true body_page_one
           initial_state).
  reflexivity.
Defined.

(** [body_page_one] names "c1"; the next continuation call sends it. *)
Lemma received_cursor_is_sent_witness :
  param "cursor"
    (params (fetchEntries_request sample_props
               (cursor (fst (fetchEntries sample_props "" true (Parsed body_page_one)
                               initial_state))) "" false))
    = Some "c1".
Proof.
  apply (@received_cursor_is_sent sample_runtime sample_props "" true body_page_one
           [entry "k1"; entry "k2"] initial_state (str "c1") "c1" "");
    try reflexivity.
  split; [exists VUndefined; split; reflexivity|].
  eexists. split; [reflexivity|]. repeat constructor.
Defined.

(** A rejected continuation call from [state_one]. *)
Lemma failed_call_can_be_repeated_witness :
  fetchEntries_request sample_props
    (cursor (fst (fetchEntries sample_props "k" false
                    (FetchRejected (ErrorObject "Failed to fetch")) state_one))) "k" false
    = fetchEntries_request sample_props (cursor state_one) "k" false.
Proof.
  apply (@failed_call_can_be_repeated sample_runtime sample_props "k" false
           (FetchRejected (ErrorObject "Failed to fetch")) state_one "k" false).
  reflexivity.
Defined.

(** ** Steps of the mounted component *)

Section Steps.

Context {rt : Runtime}.

Lemma fetchEntries_finish_cases newSearch (r : response rt) st :
  (exists t, fetchEntries_finish newSearch r st
             = (setIsLoading false st, fetchEntries_catch t) /\
             cursor_replaced newSearch r st = false /\
             page_stored newSearch r st = false) \/
  (exists data err items page next,
      r = Parsed data /\
      get_prop data "error" = Some err /\ truthy err = false /\
      page_items data items /\ Forall2 entry_of items page /\
      get_prop data "nextPageCursor" = Some next /\
      fetchEntries_finish newSearch r st =
        (setIsLoading false
           (setHasMore (truthy next)
              (setCursor (js_or next empty_string)
                 (setEntries (fun prev => if newSearch then page else (prev ++ page)%list)
                    st))), []) /\
      cursor_replaced newSearch r st
        = negb (same_value (cursor st) (js_or next empty_string)) /\
      page_stored newSearch r st = true).
Proof.
  unfold fetchEntries_finish, cursor_replaced, page_stored.
  destruct (fetchEntries_try_cases newSearch r st)
    as [[t E]|(d & err & items & page & next & Hd & He & Te & Hi & Hp & Hn & E)];
    rewrite E.
  - left. exists t. repeat split; reflexivity.
  - right. exists d, err, items, page, next. repeat split; auto.
Qed.

Lemma fetchEntries_finish_fetches newSearch (r : response rt) st :
  fetches (snd (fetchEntries_finish newSearch r st)) = [].
Proof.
  unfold fetchEntries_finish.
  destruct (fetchEntries_try newSearch r st) as [st1 [t|u]]; reflexivity.
Qed.

Lemma step_respond (p : Props) (w : World rt) id r newSearch rest :
  mounted w = true ->
  take_call id (inflight w) = Some (newSearch, rest) ->
  page_stored newSearch r (state w)
    && negb (renderable (entries (fst (fetchEntries_finish newSearch r (state w)))))
    = false ->
  step p w (Respond id r) =
    (fst (rerender p (cursor_replaced newSearch r (state w)) (state w)
            (with_state (fst (fetchEntries_finish newSearch r (state w)))
               {| state := state w; timer := timer w; inflight := rest;
                  next_id := next_id w; mounted := mounted w |})),
     (snd (fetchEntries_finish newSearch r (state w))
      ++ snd (rerender p (cursor_replaced newSearch r (state w)) (state w)
                (with_state (fst (fetchEntries_finish newSearch r (state w)))
                   {| state := state w; timer := timer w; inflight := rest;
                      next_id := next_id w; mounted := mounted w |})))%list).
Proof.
  intros Hm Ht Hc. unfold step. rewrite Ht, Hm.
  destruct (fetchEntries_finish newSearch r (state w)) as [st1 out1].
  cbn [fst snd] in *. rewrite Hc.
  match goal with |- context [rerender p ?c ?b ?x] => destruct (rerender p c b x) end.
  reflexivity.
Qed.

Lemma step_respond_unrenderable (p : Props) (w : World rt) id r newSearch rest :
  mounted w = true ->
  take_call id (inflight w) = Some (newSearch, rest) ->
  page_stored newSearch r (state w)
    && negb (renderable (entries (fst (fetchEntries_finish newSearch r (state w)))))
    = true ->
  step p w (Respond id r) =
    ({| state := fst (fetchEntries_finish newSearch r (state w)); timer := None;
        inflight := rest; next_id := next_id w; mounted := false |},
     (snd (fetchEntries_finish newSearch r (state w)) ++ [ClearTimeout])%list).
Proof.
  intros Hm Ht Hc. unfold step. rewrite Ht, Hm.
  destruct (fetchEntries_finish newSearch r (state w)) as [st1 out1].
  cbn [fst snd] in *. rewrite Hc. reflexivity.
Qed.

Lemma rerender_quiet (p : Props) (before : State rt) (w : World rt) :
  searchQuery before = searchQuery (state w) ->
  rerender p false before w = (w, []).
Proof.
  intros E. unfold rerender. rewrite E, String.eqb_refl. reflexivity.
Qed.

Lemma rerender_cursor (p : Props) (before : State rt) (w : World rt) :
  rerender p true before w =
    if String.eqb (datastoreName p) ""
    then (with_timer (Some (debounce_delay, searchQuery (state w))) w,
          [ClearTimeout; SetTimeout debounce_delay])
    else (with_timer (Some (debounce_delay, searchQuery (state w)))
            (started true (setIsLoading true (state w)) w),
          [ClearTimeout;
           Fetch (fetchEntries_request p (cursor (state w)) "" true);
           SetTimeout debounce_delay]).
Proof.
  unfold rerender, datastore_effect, fetchEntries_call, fetchEntries_start, after_call.
  rewrite orb_true_r. destruct (String.eqb (datastoreName p) ""); reflexivity.
Qed.

Lemma rerender_frame (p : Props) c (before : State rt) (w : World rt) :
  let w' := fst (rerender p c before w) in
  entries (state w') = entries (state w) /\ cursor (state w') = cursor (state w) /\
  hasMore (state w') = hasMore (state w) /\
  searchQuery (state w') = searchQuery (state w) /\ mounted w' = mounted w.
Proof.
  unfold rerender, datastore_effect, fetchEntries_call, fetchEntries_start, after_call.
  destruct c;
    destruct (negb (String.eqb (searchQuery before) (searchQuery (state w))));
    destruct (negb (String.eqb (datastoreName p) "")); simpl; auto.
Qed.

End Steps.

(** ** What an event can change *)

Section Frames.

Context {rt : Runtime}.

Lemma fetchEntries_finish_searchQuery newSearch (r : response rt) st :
  searchQuery (fst (fetchEntries_finish newSearch r st)) = searchQuery st.
Proof.
  destruct (fetchEntries_finish_cases newSearch r st)
    as [[t [E _]]|(d & err & items & page & next & _ & _ & _ & _ & _ & _ & E & _)];
    rewrite E; reflexivity.
Qed.

Lemma step_frame (p : Props) (w : World rt) e :
  (is_respond e = false ->
   entries (state (fst (step p w e))) = entries (state w) /\
   cursor (state (fst (step p w e))) = cursor (state w) /\
   hasMore (state (fst (step p w e))) = hasMore (state w)) /\
  (is_change e = false ->
   searchQuery (state (fst (step p w e))) = searchQuery (state w)).
Proof.
  destruct e as [v|ms|id r|vis|i|]; (split; intros H; try discriminate H).
  - unfold step. destruct (mounted w); cbn [negb]; [|repeat split; reflexivity].
    unfold onChange, fetchEntries_call, fetchEntries_start, after_call. simpl.
    match goal with
    | |- context [rerender p ?c ?b ?x] =>
        pose proof (rerender_frame p c b x) as R; destruct (rerender p c b x)
    end.
    cbn [fst snd] in *. destruct R as (R1 & R2 & R3 & _). rewrite R1, R2, R3.
    repeat split; reflexivity.
  - unfold step. destruct (mounted w); cbn [negb]; [|repeat split; reflexivity].
    destruct (timer w) as [[remaining q]|]; [|repeat split; reflexivity].
    destruct (remaining <=? ms)%Z; [|repeat split; reflexivity].
    unfold timer_callback, fetchEntries_call, fetchEntries_start, after_call.
    destruct (negb (String.eqb (datastoreName p) "")); repeat split; reflexivity.
  - unfold step. destruct (mounted w); cbn [negb]; [|repeat split; reflexivity].
    destruct (timer w) as [[remaining q]|]; [|repeat split; reflexivity].
    destruct (remaining <=? ms)%Z; [|repeat split; reflexivity].
    unfold timer_callback, fetchEntries_call, fetchEntries_start, after_call.
    destruct (negb (String.eqb (datastoreName p) "")); repeat split; reflexivity.
  - unfold step. destruct (take_call id (inflight w)) as [[b rest]|]; [|reflexivity].
    pose proof (fetchEntries_finish_searchQuery b r (state w)) as F.
    destruct (fetchEntries_finish b r (state w)) as [st1 out1]. cbn [fst] in F.
    destruct (mounted w); [|reflexivity].
    destruct (page_stored b r (state w) && negb (renderable (entries st1)));
      [exact F|].
    match goal with
    | |- context [rerender p ?c ?b ?x] =>
        pose proof (rerender_frame p c b x) as R; destruct (rerender p c b x)
    end.
    cbn [fst snd] in *. destruct R as (_ & _ & _ & R4 & _). rewrite R4. exact F.
  - unfold step. destruct (mounted w); cbn [negb]; [|repeat split; reflexivity].
    unfold observerTarget, sentinel, observer_callback.
    destruct (hasMore (state w)) eqn:Hh; [|cbn; repeat split; congruence].
    destruct (isLoading (state w)) eqn:Hl; cbn [orb negb];
      [cbn; repeat split; congruence|].
    destruct vis; [|cbn; repeat split; congruence].
    destruct (fetchEntries_call_cases p (cursor (state w)) (searchQuery (state w))
                false (state w)) as [E|[t E]];
      rewrite E; cbn; repeat split; congruence.
  - unfold step. destruct (mounted w); cbn [negb]; [|repeat split; reflexivity].
    unfold observerTarget, sentinel, observer_callback.
    destruct (hasMore (state w)) eqn:Hh; [|cbn; repeat split; congruence].
    destruct (isLoading (state w)) eqn:Hl; cbn [orb negb];
      [cbn; repeat split; congruence|].
    destruct vis; [|cbn; repeat split; congruence].
    destruct (fetchEntries_call_cases p (cursor (state w)) (searchQuery (state w))
                false (state w)) as [E|[t E]];
      rewrite E; cbn; repeat split; congruence.
  - unfold step. destruct (mounted w); cbn [negb]; [|repeat split; reflexivity].
    unfold click_entry. destruct (nth_error (entries (state w)) i); repeat split; reflexivity.
  - unfold step. destruct (mounted w); cbn [negb]; [|repeat split; reflexivity].
    unfold click_entry. destruct (nth_error (entries (state w)) i); repeat split; reflexivity.
  - unfold step. destruct (mounted w); cbn [negb]; repeat split; reflexivity.
  - unfold step. destruct (mounted w); cbn [negb]; repeat split; reflexivity.
Qed.

(** The list, the cursor and hasMore are touched by nothing but the answer
    to a call; the search text by nothing but typing. *)
Theorem event_frame (p : Props) (w : World rt) e :
  (is_respond e = false ->
   entries (state (fst (step p w e))) = entries (state w) /\
   cursor (state (fst (step p w e))) = cursor (state w) /\
   hasMore (state (fst (step p w e))) = hasMore (state w)) /\
  (is_change e = false ->
   searchQuery (state (fst (step p w e))) = searchQuery (state w)).
Proof. exact (step_frame p w e). Qed.

Lemma step_unmounted (p : Props) (w : World rt) e :
  mounted w = false ->
  state (fst (step p w e)) = state w /\ timer (fst (step p w e)) = timer w /\
  mounted (fst (step p w e)) = false /\ fetches (snd (step p w e)) = [].
Proof.
  intros Hm.
  destruct e as [v|ms|id r|vis|i|]; unfold step; rewrite Hm; cbn [negb];
    try (repeat split; assumption || reflexivity).
  destruct (take_call id (inflight w)) as [[b rest]|]; [|auto].
  pose proof (fetchEntries_finish_fetches b r (state w)) as F.
  destruct (fetchEntries_finish b r (state w)) as [st1 out1]. cbn [fst snd] in *.
  auto.
Qed.

Lemma run_unmounted (p : Props) es (w : World rt) :
  mounted w = false ->
  state (fst (run p w es)) = state w /\ timer (fst (run p w es)) = timer w /\
  fetches (snd (run p w es)) = [].
Proof.
  revert w. induction es as [|e es IH]; intros w Hm; [auto|].
  cbn [run]. destruct (step_unmounted p w e Hm) as (S1 & T1 & M1 & F1).
  destruct (step p w e) as [w1 out1]. cbn [fst snd] in *.
  destruct (IH w1 M1) as (S2 & T2 & F2).
  destruct (run p w1 es) as [w2 out2]. cbn [fst snd] in *.
  unfold fetches in *. rewrite flat_map_app, F1, F2, S2, T2, S1, T1. auto.
Qed.

(** Once unmounted, the component starts no request, holds no timer and
    keeps its state, whatever happens next, late answers included. *)
Theorem unmount_is_final (p : Props) (w : World rt) es :
  mounted w = true ->
  fetches (snd (run p (fst (step p w Unmount)) es)) = [] /\
  timer (fst (run p (fst (step p w Unmount)) es)) = None /\
  state (fst (run p (fst (step p w Unmount)) es)) = state w.
Proof.
  intros Hm.
  assert (U : mounted (fst (step p w Unmount)) = false /\
              state (fst (step p w Unmount)) = state w /\
              timer (fst (step p w Unmount)) = None).
  { unfold step. rewrite Hm. cbn [negb fst]. repeat split. }
  destruct U as (M & S & T).
  destruct (run_unmounted p es _ M) as (S' & T' & F').
  split; [exact F'|]. split; congruence.
Qed.

End Frames.

(** Time passing over [state_one] with its timer about to fire. *)
Lemma event_frame_witness :
  entries (state (fst (step sample_props
                         (with_timer (Some (100%Z, "k")) (idle_world state_one))
                         (Elapse 100%Z))))
    = entries state_one.
Proof.
  apply (proj1 (@event_frame sample_runtime sample_props
                  (with_timer (Some (100%Z, "k")) (idle_world state_one))
                  (Elapse 100%Z))).
  reflexivity.
Defined.

(** Unmounting while a timer runs, then waiting and scrolling. *)
Lemma unmount_is_final_witness :
  fetches (snd (run sample_props
                  (fst (step sample_props
                          (with_timer (Some (100%Z, "k")) (idle_world state_one)) Unmount))
                  [Elapse 500%Z; Intersect true; Change "x"])) = [].
Proof.
  apply (@unmount_is_final sample_runtime sample_props
           (with_timer (Some (100%Z, "k")) (idle_world state_one))
           [Elapse 500%Z; Intersect true; Change "x"]).
  reflexivity.
Defined.

(** ** Reachable states *)

Section Reachable.

Context {rt : Runtime}.

Lemma js_or_cursor_ok (next : value rt) st :
  cursor_ok (setCursor (js_or next empty_string) st).
Proof.
  unfold cursor_ok, js_or. simpl. destruct (truthy next) eqn:T; auto.
Qed.

Lemma step_cursor_ok (p : Props) (w : World rt) e :
  cursor_ok (state w) -> cursor_ok (state (fst (step p w e))).
Proof.
  intros H. destruct (is_respond e) eqn:R.
  - destruct e as [| |id r| | |]; try discriminate. unfold step.
    destruct (take_call id (inflight w)) as [[b rest]|]; [|exact H].
    assert (F : cursor_ok (fst (fetchEntries_finish b r (state w)))).
    { destruct (fetchEntries_finish_cases b r (state w))
        as [[t [E _]]|(d & err & items & page & next & _ & _ & _ & _ & _ & _ & E & _)];
        rewrite E; [exact H|]. unfold cursor_ok in *. cbn [fst].
      apply (js_or_cursor_ok next (state w)). }
    destruct (fetchEntries_finish b r (state w)) as [st1 out1]. cbn [fst] in F.
    destruct (mounted w); [|exact H].
    destruct (page_stored b r (state w) && negb (renderable (entries st1)));
      [exact F|].
    match goal with
    | |- context [rerender p ?c ?b ?x] =>
        pose proof (rerender_frame p c b x) as Q; destruct (rerender p c b x)
    end.
    cbn [fst snd] in *. destruct Q as (_ & Q2 & _). unfold cursor_ok in *.
    rewrite Q2. exact F.
  - destruct (proj1 (step_frame p w e) R) as (_ & C & _).
    unfold cursor_ok in *. rewrite C. exact H.
Qed.

Lemma run_cursor_ok (p : Props) es (w : World rt) :
  cursor_ok (state w) -> cursor_ok (state (fst (run p w es))).
Proof.
  revert w. induction es as [|e es IH]; intros w H; [exact H|].
  cbn [run]. pose proof (step_cursor_ok p w e H) as H1.
  destruct (step p w e) as [w1 out1]. cbn [fst] in H1.
  pose proof (IH w1 H1) as H2. destruct (run p w1 es) as [w2 out2]. exact H2.
Qed.

Lemma mount_cursor_ok (p : Props) : cursor_ok (state (fst (mount (rt:=rt) p))).
Proof.
  unfold mount, datastore_effect, fetchEntries_call, fetchEntries_start, after_call.
  destruct (negb (String.eqb (datastoreName p) "")); left; reflexivity.
Qed.

(** Whatever happens after mounting, the stored cursor is the empty string
    or a truthy value, so the next continuation call leaves the cursor
    parameter out exactly when the stored cursor is the empty string. *)
Theorem stored_cursor_invariant (p : Props) (es : list (event rt)) q :
  let st := state (fst (run p (fst (mount p)) es)) in
  cursor_ok st /\
  (param "cursor" (params (fetchEntries_request p (cursor st) q false)) = None
   <-> cursor st = str "").
Proof.
  intros st. assert (H : cursor_ok st) by (apply run_cursor_ok, mount_cursor_ok).
  split; [exact H|]. unfold fetchEntries_request. split.
  - destruct H as [H|H]; [auto|]. rewrite H. simpl. discriminate.
  - intros E. rewrite E. reflexivity.
Qed.

End Reachable.

(** ** Mounting, and answers that re-run the effects *)

Section Effects.

Context {rt : Runtime}.

(** Mounting with a datastore name starts a fresh search for the empty
    prefix, and the debounce timer set on mount starts the same search once
    more 500 ms later; with no name neither happens. *)
Theorem mount_searches_twice (p : Props) :
  let fresh := fetchEntries_request (rt:=rt) p (str "") "" true in
  fetches (snd (mount (rt:=rt) p))
    = (if String.eqb (datastoreName p) "" then [] else [fresh]) /\
  timer (fst (mount (rt:=rt) p)) = Some (500%Z, "") /\
  fetches (snd (step p (fst (mount (rt:=rt) p)) (Elapse 500%Z)))
    = (if String.eqb (datastoreName p) "" then [] else [fresh]) /\
  param "prefix" (params fresh) = Some "" /\ param "cursor" (params fresh) = None.
Proof.
  intros fresh. subst fresh.
  assert (M : mounted (fst (mount (rt:=rt) p)) = true /\
              timer (fst (mount (rt:=rt) p)) = Some (debounce_delay, "")).
  { unfold mount, datastore_effect, fetchEntries_call, fetchEntries_start, after_call.
    destruct (negb (String.eqb (datastoreName p) "")); split; reflexivity. }
  destruct M as [Hm Ht].
  assert (L : (debounce_delay <= 500)%Z) by (unfold debounce_delay; lia).
  split; [|split; [exact Ht|split; [|split; reflexivity]]].
  - unfold mount, datastore_effect, fetchEntries_call, fetchEntries_start, after_call.
    destruct (String.eqb (datastoreName p) ""); reflexivity.
  - rewrite (step_elapse_fire p _ debounce_delay "" 500%Z Hm Ht L).
    unfold timer_callback, fetchEntries_call, fetchEntries_start, after_call.
    destruct (String.eqb (datastoreName p) ""); reflexivity.
Qed.

Lemma fetchEntries_finish_complete newSearch (data : json rt) page next st :
  maps_to data page ->
  get_prop data "nextPageCursor" = Some next ->
  fetchEntries_finish newSearch (Parsed data) st =
    (setIsLoading false
       (setHasMore (truthy next)
          (setCursor (js_or next empty_string)
             (setEntries (fun prev => if newSearch then page else (prev ++ page)%list)
                st))), []) /\
  cursor_replaced newSearch (Parsed data) st
    = negb (same_value (cursor st) (js_or next empty_string)).
Proof.
  intros Hm Hn. unfold fetchEntries_finish, cursor_replaced.
  rewrite (fetchEntries_try_complete newSearch data page next st Hm Hn).
  split; reflexivity.
Qed.

(** An answer that stores a cursor other than the one held, and leaves a
    list that React can render, makes [fetchEntries] a new function, so
    both effects run again: with a datastore name, a fresh search for the
    empty prefix starts at once, whatever the search box says, and the
    debounce timer starts over. *)
Theorem new_cursor_restarts_search (p : Props) (w : World rt) id (newSearch : bool) rest
    (data : json rt) page c c' :
  mounted w = true ->
  take_call id (inflight w) = Some (newSearch, rest) ->
  maps_to data page ->
  renderable (if newSearch then page else (entries (state w) ++ page)%list) = true ->
  get_prop data "nextPageCursor" = Some (str c') ->
  cursor (state w) = str c -> c <> c' ->
  datastoreName p <> "" ->
  let w' := fst (step p w (Respond id (Parsed data))) in
  fetches (snd (step p w (Respond id (Parsed data))))
    = [fetchEntries_request (rt:=rt) p (str "") "" true] /\
  isLoading (state w') = true /\
  timer w' = Some (500%Z, searchQuery (state w)) /\
  inflight w' = (rest ++ [(next_id w, true)])%list /\
  entries (state w') = (if newSearch then page else (entries (state w) ++ page)%list) /\
  cursor (state w') = str c'.
Proof.
  intros Hm Ht Hp Hr Hn Hc Hne Hd w'. subst w'.
  destruct (fetchEntries_finish_complete newSearch data page (str c') (state w) Hp Hn)
    as [E R].
  rewrite (step_respond p w id (Parsed data) newSearch rest Hm Ht);
    [|rewrite E; cbn [fst entries setIsLoading setHasMore setCursor setEntries];
      rewrite Hr; apply andb_false_r].
  assert (J : js_or (str c') empty_string = str (rt:=rt) c').
  { unfold js_or, str, empty_string. simpl.
    destruct (String.eqb_spec c' ""); [subst; reflexivity|reflexivity]. }
  rewrite J in E, R. rewrite Hc in R. simpl in R.
  destruct (String.eqb_spec c c') as [C|_]; [contradiction|]. simpl in R.
  rewrite R, E. cbn [fst snd]. rewrite rerender_cursor.
  destruct (String.eqb_spec (datastoreName p) "") as [C|_]; [contradiction|].
  cbn. repeat split; reflexivity.
Qed.

(** An answer that ends in a toast sets isLoading to false although the
    other calls are still in flight; it starts nothing and leaves the
    timer alone. *)
Theorem failed_answer_clears_loading (p : Props) (w : World rt) id newSearch rest r :
  mounted w = true ->
  take_call id (inflight w) = Some (newSearch, rest) ->
  quiet (snd (fetchEntries_finish newSearch r (state w))) = false ->
  let w' := fst (step p w (Respond id r)) in
  isLoading (state w') = false /\ inflight w' = rest /\ timer w' = timer w /\
  fetches (snd (step p w (Respond id r))) = [].
Proof.
  intros Hm Ht Q w'. subst w'.
  destruct (fetchEntries_finish_cases newSearch r (state w))
    as [[t (E & R & P)]|(d & err & items & page & next & _ & _ & _ & _ & _ & _ & E & _)];
    rewrite E in Q; [|discriminate].
  rewrite (step_respond p w id r newSearch rest Hm Ht) by (rewrite P; reflexivity).
  rewrite E, R. cbn [fst snd]. rewrite rerender_quiet by reflexivity.
  cbn. repeat split; reflexivity.
Qed.

End Effects.

(** The second page arrives while another call is in flight. *)
Lemma new_cursor_restarts_search_witness :
  fetches (snd (step sample_props loading_world (Respond 0 (Parsed body_page_two))))
    = [fetchEntries_request (rt:=sample_runtime) sample_props (str "") "" true] /\
  entries (state (fst (step sample_props loading_world (Respond 0 (Parsed body_page_two)))))
    = [entry "k1"; entry "k2"; entry "k3"].
Proof.
  destruct (@new_cursor_restarts_search sample_runtime sample_props loading_world 0 false
              [(1, false)] body_page_two [entry "k3"] "c1" "c2")
    as (F & _ & _ & _ & E & _); try reflexivity; try discriminate.
  - split.
    + exists VUndefined. split; reflexivity.
    + eexists. split; [reflexivity|]. repeat constructor.
  - split; [exact F|exact E].
Defined.

(** One of two calls is rejected. *)
Lemma failed_answer_clears_loading_witness :
  isLoading (state (fst (step sample_props loading_world
                           (Respond 0 (FetchRejected (ErrorObject "Failed to fetch"))))))
    = false /\
  inflight (fst (step sample_props loading_world
                   (Respond 0 (FetchRejected (ErrorObject "Failed to fetch")))))
    = [(1, false)].
Proof.
  destruct (@failed_answer_clears_loading sample_runtime sample_props loading_world 0 false
              [(1, false)] (FetchRejected (ErrorObject "Failed to fetch")))
    as (L & I & _); try reflexivity.
  split; [exact L|exact I].
Defined.

(** ** The sentinel, the debounce and the requests of a run *)

Section Runs.

Context {rt : Runtime}.

Lemma run_intersect_blocked (p : Props) es (w : World rt) :
  hasMore (state w) = false \/ isLoading (state w) = true ->
  forallb is_intersect es = true ->
  run p w es = (w, []).
Proof.
  intros H. induction es as [|e es IH]; intros F; [reflexivity|].
  simpl in F. apply andb_prop in F. destruct F as [Fe Fes].
  destruct e; try discriminate.
  cbn [run]. rewrite (step_intersect_gated p w isIntersecting H).
  rewrite (IH Fes). reflexivity.
Qed.

(** However often the observer reports while the list is idle with more to
    come and holds a cursor that can be sent, one continuation call starts,
    at the first report that the sentinel is visible, for the current
    search text and stored cursor; no report of visibility, no call. *)
Theorem sentinel_starts_one_call (p : Props) (w : World rt) es :
  mounted w = true -> hasMore (state w) = true -> isLoading (state w) = false ->
  sendable (cursor (state w)) = true ->
  forallb is_intersect es = true ->
  fetches (snd (run p w es))
    = (if existsb is_visible es
       then [fetchEntries_request p (cursor (state w)) (searchQuery (state w)) false]
       else []).
Proof.
  intros Hm Hh Hl Hs. induction es as [|e es IH]; intros F; [reflexivity|].
  simpl in F. apply andb_prop in F. destruct F as [Fe Fes].
  destruct e as [| | |vis| |]; try discriminate. cbn [run existsb].
  destruct vis.
  - assert (E : step p w (Intersect true)
                = (started false (setIsLoading true (state w)) w,
                   [Fetch (fetchEntries_request p (cursor (state w))
                             (searchQuery (state w)) false)])).
    { unfold step, observerTarget, sentinel, observer_callback.
      rewrite Hm, Hh, Hl. cbn [negb orb].
      rewrite (fetchEntries_call_sendable p (cursor (state w)) (searchQuery (state w))
                 false (state w) Hs).
      reflexivity. }
    rewrite E.
    rewrite (run_intersect_blocked p es
               (started false (setIsLoading true (state w)) w)
               (or_intror (eq_refl true)) Fes).
    reflexivity.
  - assert (E : step p w (Intersect false) = (w, [])).
    { unfold step, observerTarget, sentinel, observer_callback.
      rewrite Hm, Hh, Hl. reflexivity. }
    rewrite E. specialize (IH Fes). destruct (run p w es) as [w2 out2].
    exact IH.
Qed.

End Runs.

Section Traces.

Context {rt : Runtime}.

(** Of two texts typed less than 500 ms apart, each gets its immediate
    fresh search, and only the second gets the debounced one. *)
Theorem debounce_keeps_last_text (p : Props) (w : World rt) v1 v2 ms :
  mounted w = true -> v1 <> searchQuery (state w) -> v2 <> v1 ->
  (0 <= ms < 500)%Z -> datastoreName p <> "" ->
  fetches (snd (run p w [Change v1; Elapse ms; Change v2; Elapse 500%Z]))
    = [fetchEntries_request (rt:=rt) p (str "") v1 true;
       fetchEntries_request (rt:=rt) p (str "") v2 true;
       fetchEntries_request (rt:=rt) p (str "") v2 true].
Proof.
  intros Hm H1 H2 [_ Hms] Hd. cbn [run].
  rewrite (step_change p w v1 Hm H1).
  set (w1 := with_timer (Some (debounce_delay, v1))
               (started true (setIsLoading true (setSearchQuery v1 (state w))) w)).
  assert (Hm1 : mounted w1 = true) by exact Hm.
  assert (Hms' : (ms < debounce_delay)%Z) by (unfold debounce_delay; lia).
  rewrite (step_elapse_wait p w1 debounce_delay v1 ms Hm1 eq_refl Hms').
  set (w2 := with_timer (Some ((debounce_delay - ms)%Z, v1)) w1).
  assert (Hm2 : mounted w2 = true) by exact Hm.
  rewrite (step_change p w2 v2 Hm2 H2).
  set (w3 := with_timer (Some (debounce_delay, v2))
               (started true (setIsLoading true (setSearchQuery v2 (state w2))) w2)).
  assert (Hm3 : mounted w3 = true) by exact Hm.
  assert (L : (debounce_delay <= 500)%Z) by (unfold debounce_delay; lia).
  rewrite (step_elapse_fire p w3 debounce_delay v2 500%Z Hm3 eq_refl L).
  unfold timer_callback, fetchEntries_call, fetchEntries_start, after_call.
  destruct (String.eqb_spec (datastoreName p) "") as [C|_]; [contradiction|].
  reflexivity.
Qed.

Lemma request_for_props (p : Props) (c : value rt) q b :
  for_props p (fetchEntries_request p c q b).
Proof. unfold for_props, fetchEntries_request. repeat split. Qed.

Lemma rerender_for_props (p : Props) c (before : State rt) (w : World rt) :
  Forall (for_props p) (fetches (snd (rerender p c before w))).
Proof.
  unfold rerender, datastore_effect, fetchEntries_call, fetchEntries_start, after_call.
  destruct c;
    destruct (negb (String.eqb (searchQuery before) (searchQuery (state w))));
    destruct (negb (String.eqb (datastoreName p) "")); simpl;
    repeat constructor; apply request_for_props.
Qed.

Lemma step_for_props (p : Props) (w : World rt) e :
  Forall (for_props p) (fetches (snd (step p w e))).
Proof.
  destruct e as [v|ms|id r|vis|i|]; unfold step.
  - destruct (mounted w); cbn [negb]; [|constructor].
    unfold onChange, fetchEntries_call, fetchEntries_start, after_call. simpl.
    match goal with
    | |- context [rerender p ?c ?b ?x] =>
        pose proof (rerender_for_props p c b x) as R; destruct (rerender p c b x)
    end.
    cbn [fst snd] in *. simpl. constructor; [apply request_for_props|exact R].
  - destruct (mounted w); cbn [negb]; [|constructor].
    destruct (timer w) as [[remaining q]|]; [|constructor].
    destruct (remaining <=? ms)%Z; [|constructor].
    unfold timer_callback, fetchEntries_call, fetchEntries_start, after_call.
    destruct (negb (String.eqb (datastoreName p) "")); simpl;
      repeat constructor; apply request_for_props.
  - destruct (take_call id (inflight w)) as [[b rest]|]; [|constructor].
    pose proof (fetchEntries_finish_fetches b r (state w)) as F.
    destruct (fetchEntries_finish b r (state w)) as [st1 out1]. cbn [fst snd] in F.
    destruct (mounted w); cbn [snd]; [|rewrite F; constructor].
    destruct (page_stored b r (state w) && negb (renderable (entries st1)));
      [cbn [snd]; unfold fetches in *; rewrite flat_map_app, F; constructor|].
    match goal with
    | |- context [rerender p ?c ?b ?x] =>
        pose proof (rerender_for_props p c b x) as R; destruct (rerender p c b x)
    end.
    cbn [fst snd] in *. unfold fetches in *. rewrite flat_map_app, F. exact R.
  - destruct (mounted w); cbn [negb]; [|constructor].
    unfold observerTarget, sentinel, observer_callback.
    destruct (hasMore (state w)); [|constructor].
    destruct (isLoading (state w)); cbn [orb negb]; [constructor|].
    destruct vis; [|constructor].
    destruct (fetchEntries_call_cases p (cursor (state w)) (searchQuery (state w))
                false (state w)) as [E|[t E]];
      rewrite E; simpl; repeat constructor; apply request_for_props.
  - destruct (mounted w); cbn [negb]; [|constructor].
    unfold click_entry. destruct (nth_error (entries (state w)) i); constructor.
  - destruct (mounted w); cbn [negb]; constructor.
Qed.

(** Every request of every run is for the datastore of the props and
    carries their universeId and apiToken. *)
Theorem requests_carry_props (p : Props) (es : list (event rt)) (w : World rt) :
  Forall (for_props p) (fetches (snd (run p w es))).
Proof.
  revert w. induction es as [|e es IH]; intros w; [constructor|].
  cbn [run]. pose proof (step_for_props p w e) as S1.
  destruct (step p w e) as [w1 out1]. specialize (IH w1).
  destruct (run p w1 es) as [w2 out2]. cbn [fst snd] in *.
  unfold fetches in *. rewrite flat_map_app. apply Forall_app. split; assumption.
Qed.

End Traces.

(** "x", then "xy" 200 ms later, then silence. *)
Lemma debounce_keeps_last_text_witness :
  fetches (snd (run sample_props (fst (mount (rt:=sample_runtime) sample_props))
                  [Change "x"; Elapse 200%Z; Change "xy"; Elapse 500%Z]))
    = [fetchEntries_request (rt:=sample_runtime) sample_props (str "") "x" true;
       fetchEntries_request (rt:=sample_runtime) sample_props (str "") "xy" true;
       fetchEntries_request (rt:=sample_runtime) sample_props (str "") "xy" true].
Proof.
  apply (@debounce_keeps_last_text sample_runtime sample_props
           (fst (mount sample_props)) "x" "xy" 200%Z);
    try reflexivity; try discriminate.
  lia.
Defined.

(** ** Answers out of order *)

Section OutOfOrder.

Context {rt : Runtime}.

Lemma take_call_found id b (l l' : list (nat * bool)) :
  ~ In id (map fst l) ->
  take_call id (l ++ (id, b) :: l') = Some (b, (l ++ l')%list).
Proof.
  induction l as [|[i c] l IH]; simpl; intros H.
  - rewrite Nat.eqb_refl. reflexivity.
  - destruct (Nat.eqb_spec i id) as [E|_]; [exfalso; apply H; left; exact E|].
    rewrite IH; [reflexivity|]. intros C. apply H. right. exact C.
Qed.

Lemma rerender_calls (p : Props) c (before : State rt) (w : World rt) :
  inflight (fst (rerender p c before w)) = inflight w \/
  inflight (fst (rerender p c before w)) = (inflight w ++ [(next_id w, true)])%list.
Proof.
  unfold rerender, datastore_effect, fetchEntries_call, fetchEntries_start, after_call.
  destruct c;
    destruct (negb (String.eqb (searchQuery before) (searchQuery (state w))));
    destruct (negb (String.eqb (datastoreName p) "")); simpl; auto.
Qed.

Lemma step_change_calls (p : Props) (w : World rt) v :
  mounted w = true ->
  let w' := fst (step p w (Change v)) in
  mounted w' = true /\ searchQuery (state w') = v /\
  inflight w' = (inflight w ++ [(next_id w, true)])%list /\
  next_id w' = S (next_id w).
Proof.
  intros Hm. unfold step. rewrite Hm. cbn [negb].
  unfold onChange, fetchEntries_call, fetchEntries_start, after_call, rerender. simpl.
  rewrite orb_false_r.
  destruct (negb (String.eqb (searchQuery (state w)) v)); cbn; auto.
Qed.

Lemma step_respond_page (p : Props) (w : World rt) id (newSearch : bool) rest
    (data : json rt) page :
  mounted w = true ->
  take_call id (inflight w) = Some (newSearch, rest) ->
  maps_to data page ->
  renderable (if newSearch then page else (entries (state w) ++ page)%list) = true ->
  let w' := fst (step p w (Respond id (Parsed data))) in
  mounted w' = true /\ searchQuery (state w') = searchQuery (state w) /\
  entries (state w') = (if newSearch then page else (entries (state w) ++ page)%list) /\
  (inflight w' = rest \/ inflight w' = (rest ++ [(next_id w, true)])%list).
Proof.
  intros Hm Ht Hp Hr w'. subst w'.
  destruct Hp as [[err [He Te]] Hrest].
  destruct (get_prop_total data "error" "nextPageCursor" err He) as [next Hn].
  destruct (fetchEntries_finish_complete newSearch data page next (state w)
              (conj (ex_intro _ err (conj He Te)) Hrest) Hn) as [E _].
  rewrite (step_respond p w id (Parsed data) newSearch rest Hm Ht);
    [|rewrite E; cbn [fst entries setIsLoading setHasMore setCursor setEntries];
      rewrite Hr; apply andb_false_r].
  cbn [fst]. rewrite E. cbn [fst].
  match goal with
  | |- context [rerender p ?c ?b ?x] =>
      pose proof (rerender_frame p c b x) as R;
      pose proof (rerender_calls p c b x) as C;
      destruct (rerender p c b x) as [w2 out2]
  end.
  cbn [fst] in *. destruct R as (R1 & _ & _ & R4 & R5).
  rewrite R1, R4, R5. repeat split; [exact Hm|exact C].
Qed.

(** Two fresh searches are started one after the other and the answer to
    the first arrives after the answer to the second, both with pages that
    React can render: the list then shows the page of the first search,
    while the search box holds the text of the second. *)
Theorem stale_answer_overwrites (p : Props) (w : World rt) v1 v2
    (d1 d2 : json rt) page1 page2 :
  mounted w = true ->
  Forall (fun c => fst c < next_id w) (inflight w) ->
  maps_to d1 page1 -> maps_to d2 page2 ->
  renderable page1 = true -> renderable page2 = true ->
  let w' := fst (run p w [Change v1; Change v2;
                          Respond (S (next_id w)) (Parsed d2);
                          Respond (next_id w) (Parsed d1)]) in
  mounted w' = true /\ searchQuery (state w') = v2 /\ entries (state w') = page1.
Proof.
  intros Hm Hwf H1 H2 R1 R2. cbn [run].
  assert (Fresh : forall k, next_id w <= k -> ~ In k (map fst (inflight w))).
  { intros k Hk C. apply in_map_iff in C. destruct C as [c [Ec Hc]].
    rewrite Forall_forall in Hwf. specialize (Hwf c Hc). lia. }
  destruct (step_change_calls p w v1 Hm) as (M1 & _ & I1 & N1).
  destruct (step p w (Change v1)) as [w1 o1]. cbn [fst] in *.
  destruct (step_change_calls p w1 v2 M1) as (M2 & Q2 & I2 & N2).
  destruct (step p w1 (Change v2)) as [w2 o2]. cbn [fst] in *.
  rewrite I1, N1 in I2.
  assert (T2 : take_call (S (next_id w)) (inflight w2)
               = Some (true, (inflight w ++ [(next_id w, true)])%list)).
  { rewrite I2.
    rewrite (take_call_found (S (next_id w)) true (inflight w ++ [(next_id w, true)]) []).
    - rewrite app_nil_r. reflexivity.
    - rewrite map_app, in_app_iff. simpl. intros [C|[C|[]]]; [|lia].
      apply (Fresh (S (next_id w))); [lia|exact C]. }
  destruct (step_respond_page p w2 (S (next_id w)) true _ d2 page2 M2 T2 H2 R2)
    as (M3 & Q3 & _ & I3).
  destruct (step p w2 (Respond (S (next_id w)) (Parsed d2))) as [w3 o3]. cbn [fst] in *.
  assert (T3 : exists rest, take_call (next_id w) (inflight w3) = Some (true, rest)).
  { destruct I3 as [I3|I3]; rewrite I3.
    - eexists. apply (take_call_found (next_id w) true (inflight w) []).
      apply Fresh. lia.
    - rewrite <- app_assoc. eexists.
      apply (take_call_found (next_id w) true (inflight w) [(next_id w2, true)]).
      apply Fresh. lia. }
  destruct T3 as [rest T3].
  destruct (step_respond_page p w3 (next_id w) true rest d1 page1 M3 T3 H1 R1)
    as (M4 & Q4 & E4 & _).
  destruct (step p w3 (Respond (next_id w) (Parsed d1))) as [w4 o4]. cbn [fst] in *.
  split; [exact M4|]. split; [congruence|exact E4].
Qed.

End OutOfOrder.

(** Typing "x" then "xy" into [state_one]; the answers arrive in reverse. *)
Lemma stale_answer_overwrites_witness :
  mounted (fst (run sample_props (idle_world state_one)
                  [Change "x"; Change "xy";
                   Respond 1 (Parsed body_page_two);
                   Respond 0 (Parsed body_page_one)])) = true /\
  searchQuery (state (fst (run sample_props (idle_world state_one)
                             [Change "x"; Change "xy";
                              Respond 1 (Parsed body_page_two);
                              Respond 0 (Parsed body_page_one)]))) = "xy" /\
  entries (state (fst (run sample_props (idle_world state_one)
                         [Change "x"; Change "xy";
                          Respond 1 (Parsed body_page_two);
                          Respond 0 (Parsed body_page_one)])))
    = [entry "k1"; entry "k2"].
Proof.
  apply (@stale_answer_overwrites sample_runtime sample_props (idle_world state_one)
           "x" "xy" body_page_one body_page_two [entry "k1"; entry "k2"] [entry "k3"]).
  - reflexivity.
  - constructor.
  - split; [exists VUndefined; split; reflexivity|].
    eexists. split; [reflexivity|]. repeat constructor.
  - split; [exists VUndefined; split; reflexivity|].
    eexists. split; [reflexivity|]. repeat constructor.
  - reflexivity.
  - reflexivity.
Defined.

(** The observer reports hidden, visible, visible over [state_one]. *)
Lemma sentinel_starts_one_call_witness :
  fetches (snd (run sample_props (idle_world state_one)
                  [Intersect false; Intersect true; Intersect true]))
    = [fetchEntries_request sample_props (cursor state_one) "k" false].
Proof.
  apply (@sentinel_starts_one_call sample_runtime sample_props (idle_world state_one)
           [Intersect false; Intersect true; Intersect true]); reflexivity.
Defined.

(** ** The rendered list *)

Section Rendering.

Context {rt : Runtime}.

(** Typing after the last page starts a fresh search, but while it is in
    flight neither the sentinel nor the spinner is rendered. *)
Theorem no_spinner_after_last_page (p : Props) (w : World rt) v :
  mounted w = true -> hasMore (state w) = false ->
  let st' := state (fst (step p w (Change v))) in
  isLoading st' = true /\ input_value (render p st') = v /\
  sentinel_shown (render p st') = false /\ spinner_shown (render p st') = false.
Proof.
  intros Hm Hh st'. subst st'.
  destruct (proj1 (step_frame p w (Change v)) eq_refl) as (_ & _ & H).
  rewrite Hh in H. unfold render. cbn [input_value sentinel_shown spinner_shown].
  rewrite H. cbn [andb].
  destruct (step_change_calls p w v Hm) as (_ & Q & _).
  split; [|split; [exact Q|split; reflexivity]].
  unfold step. rewrite Hm. cbn [negb].
  unfold onChange, fetchEntries_call, fetchEntries_start, after_call. simpl.
  match goal with
  | |- context [rerender p ?c ?b ?x] =>
      pose proof (rerender_state p c b x) as R; destruct (rerender p c b x)
  end.
  cbn [fst] in *. destruct R as [-> | ->]; reflexivity.
Qed.

End Rendering.

(** Typing "x" into [state_exhausted]. *)
Lemma no_spinner_after_last_page_witness :
  isLoading (state (fst (step sample_props (idle_world state_exhausted) (Change "x"))))
    = true /\
  input_value (render sample_props
                 (state (fst (step sample_props (idle_world state_exhausted) (Change "x")))))
    = "x" /\
  sentinel_shown (render sample_props
                    (state (fst (step sample_props (idle_world state_exhausted)
                                   (Change "x"))))) = false /\
  spinner_shown (render sample_props
                   (state (fst (step sample_props (idle_world state_exhausted)
                                  (Change "x"))))) = false.
Proof.
  apply (@no_spinner_after_last_page sample_runtime sample_props
           (idle_world state_exhausted) "x"); reflexivity.
Defined.

(** ** The sentinel after the last page *)

Section AfterLastPage.

Context {rt : Runtime}.

Lemma step_respond_frame (p : Props) (w : World rt) id r newSearch rest :
  mounted w = true ->
  take_call id (inflight w) = Some (newSearch, rest) ->
  let st1 := fst (fetchEntries_finish newSearch r (state w)) in
  let w' := fst (step p w (Respond id r)) in
  entries (state w') = entries st1 /\ cursor (state w') = cursor st1 /\
  hasMore (state w') = hasMore st1 /\ searchQuery (state w') = searchQuery st1.
Proof.
  intros Hm Ht. unfold step. rewrite Ht, Hm.
  destruct (fetchEntries_finish newSearch r (state w)) as [st1 out1]. cbn [fst].
  destruct (page_stored newSearch r (state w) && negb (renderable (entries st1)));
    [repeat split; reflexivity|].
  match goal with
  | |- context [rerender p ?c ?b ?x] =>
      pose proof (rerender_frame p c b x) as R; destruct (rerender p c b x)
  end.
  cbn [fst snd] in *. destruct R as (R1 & R2 & R3 & R4 & _). auto.
Qed.

Lemma fetchEntries_finish_hasMore newSearch (r : response rt) st :
  hasMore st = false -> names_next (Respond 0 r) = false ->
  hasMore (fst (fetchEntries_finish newSearch r st)) = false.
Proof.
  intros Hh Hn.
  destruct (fetchEntries_finish_cases newSearch r st)
    as [[t (E & _)]|(d & err & items & page & next & Hd & _ & _ & _ & _ & Hx & E & _)];
    rewrite E; [exact Hh|].
  subst r. simpl in Hn. rewrite Hx in Hn. exact Hn.
Qed.

Lemma step_keeps_exhausted (p : Props) (w : World rt) e :
  hasMore (state w) = false -> names_next e = false ->
  hasMore (state (fst (step p w e))) = false.
Proof.
  intros Hh Hn. destruct (is_respond e) eqn:R.
  - destruct e as [| |id r| | |]; try discriminate.
    destruct (take_call id (inflight w)) as [[b rest]|] eqn:Ht;
      [|unfold step; rewrite Ht; exact Hh].
    destruct (mounted w) eqn:Hm.
    + destruct (step_respond_frame p w id r b rest Hm Ht) as (_ & _ & H & _).
      rewrite H. apply fetchEntries_finish_hasMore; [exact Hh|].
      destruct r; exact Hn.
    + unfold step. rewrite Ht, Hm.
      destruct (fetchEntries_finish b r (state w)). exact Hh.
  - destruct (proj1 (step_frame p w e) R) as (_ & _ & H). rewrite H. exact Hh.
Qed.

Lemma run_keeps_exhausted (p : Props) es (w : World rt) :
  hasMore (state w) = false ->
  forallb (fun e => negb (names_next e)) es = true ->
  hasMore (state (fst (run p w es))) = false.
Proof.
  revert w. induction es as [|e es IH]; intros w Hh F; [exact Hh|].
  simpl in F. apply andb_prop in F. destruct F as [Fe Fes].
  apply negb_true_iff in Fe.
  cbn [run]. pose proof (step_keeps_exhausted p w e Hh Fe) as H1.
  destruct (step p w e) as [w1 out1]. cbn [fst] in H1.
  pose proof (IH w1 H1 Fes) as H2. destruct (run p w1 es) as [w2 out2]. exact H2.
Qed.

(** C5, as the code has it.  The answer of a body that parses to a page and
    whose [nextPageCursor] is missing or empty leaves [hasMore] false, for
    the call alone and for the mounted component.  From then on, whatever
    happens, typing, timers, failed answers, clicks, as long as no answer
    names a next page, [hasMore] stays false and no report from the
    sentinel's observer starts a call or changes anything.  Nor does a
    report start a call while [isLoading] is true. *)
Theorem sentinel_gated :
  (forall (p : Props) q newSearch (data : json rt) page next st,
      maps_to data page ->
      get_prop data "nextPageCursor" = Some next -> truthy next = false ->
      hasMore (fst (fetchEntries p q newSearch (Parsed data) st)) = false) /\
  (forall (p : Props) (w : World rt) id newSearch rest (data : json rt) page next,
      mounted w = true ->
      take_call id (inflight w) = Some (newSearch, rest) ->
      maps_to data page ->
      get_prop data "nextPageCursor" = Some next -> truthy next = false ->
      hasMore (state (fst (step p w (Respond id (Parsed data))))) = false) /\
  (forall (p : Props) (w : World rt) es vis,
      hasMore (state w) = false ->
      forallb (fun e => negb (names_next e)) es = true ->
      hasMore (state (fst (run p w es))) = false /\
      step p (fst (run p w es)) (Intersect vis) = (fst (run p w es), [])) /\
  (forall (p : Props) (w : World rt) vis,
      isLoading (state w) = true -> step p w (Intersect vis) = (w, [])).
Proof.
  split; [|split; [|split]].
  - intros p q newSearch data page next st Hm Hn T. rewrite fetchEntries_unfold.
    rewrite (fetchEntries_try_complete newSearch data page next _ Hm Hn). exact T.
  - intros p w id newSearch rest data page next Hm Ht Hp Hn T.
    destruct (step_respond_frame p w id (Parsed data) newSearch rest Hm Ht)
      as (_ & _ & H & _).
    rewrite H.
    rewrite (proj1 (fetchEntries_finish_complete newSearch data page next (state w) Hp Hn)).
    exact T.
  - intros p w es vis Hh F.
    pose proof (run_keeps_exhausted p es w Hh F) as H.
    split; [exact H|]. apply step_intersect_gated. left. exact H.
  - intros p w vis Hl. apply step_intersect_gated. right. exact Hl.
Qed.

End AfterLastPage.

(** The first search of a freshly mounted list is answered by the last
    page; then "x" is typed, the timer fires, a call is rejected and the
    sentinel comes into view. *)
Lemma sentinel_gated_witness :
  hasMore (state (fst (step sample_props (fst (mount (rt:=sample_runtime) sample_props))
                         (Respond 0 (Parsed body_last_page))))) = false /\
  step sample_props
    (fst (run sample_props world_last_page
            [Change "x"; Elapse 500%Z;
             Respond 1 (FetchRejected (ErrorObject "Failed to fetch"))]))
    (Intersect true)
  = (fst (run sample_props world_last_page
            [Change "x"; Elapse 500%Z;
             Respond 1 (FetchRejected (ErrorObject "Failed to fetch"))]), []).
Proof.
  split.
  - apply (proj1 (proj2 (@sentinel_gated sample_runtime)) sample_props
             (fst (mount sample_props)) 0 true [] body_last_page [entry "k9"] (str ""));
      try reflexivity.
    split; [exists VUndefined; split; reflexivity|].
    eexists. split; [reflexivity|]. repeat constructor.
  - apply (proj1 (proj2 (proj2 (@sentinel_gated sample_runtime))) sample_props
             world_last_page
             [Change "x"; Elapse 500%Z;
              Respond 1 (FetchRejected (ErrorObject "Failed to fetch"))] true);
      reflexivity.
Defined.

(** After the last page has been shown and the sentinel has stayed quiet,
    the answers to two searches that nobody typed for bring [hasMore] back,
    and the sentinel starts a continuation call: the search text is still
    the empty one and the props are the same. *)
Lemma late_answer_revives_sentinel_counterexample :
  hasMore (state world_last_page) = false /\
  searchQuery (state world_last_page) = "" /\
  snd (step sample_props world_last_page (Intersect true)) = [] /\
  searchQuery (state world_revived) = "" /\
  hasMore (state world_revived) = true /\
  fetches (snd (step sample_props world_revived (Intersect true)))
    = [{| datastore := "Players";
          params := [("universeId", "42"); ("apiToken", "secret");
                     ("prefix", ""); ("cursor", "c1")] |}].
Proof. repeat split. Qed.

(** ** Values that cannot be written or shown *)

Section Unusable.

Context {rt : Runtime}.

Lemma step_intersect_unsendable (p : Props) (w : World rt) :
  mounted w = true -> hasMore (state w) = true -> isLoading (state w) = false ->
  truthy (cursor (state w)) = true -> to_string (cursor (state w)) = None ->
  step p w (Intersect true)
    = (w, [Toast ("Error: " ++ to_primitive_message rt) "error" 3000%Z]).
Proof.
  intros Hm Hh Hl T N.
  unfold step, observerTarget, sentinel, observer_callback, fetchEntries_call,
    fetchEntries_start, stringify, after_call.
  rewrite Hm, Hh, Hl. cbn [negb orb]. rewrite T, N. cbn.
  destruct w as [st tm fl nx mt]. destruct st. simpl in *. subst. reflexivity.
Qed.

(** While the list is idle with more to come and holds a truthy cursor
    that has no text, every report that the sentinel is visible ends in the
    engine's [TypeError] toast: no request is ever made, nothing changes,
    and isLoading never gates the next report. *)
Theorem unsendable_cursor_toasts (p : Props) (w : World rt) n :
  mounted w = true -> hasMore (state w) = true -> isLoading (state w) = false ->
  truthy (cursor (state w)) = true -> to_string (cursor (state w)) = None ->
  run p w (repeat (Intersect true) n)
    = (w, repeat (Toast ("Error: " ++ to_primitive_message rt) "error" 3000%Z) n).
Proof.
  intros Hm Hh Hl T N. induction n as [|n IH]; [reflexivity|].
  cbn [repeat run]. rewrite (step_intersect_unsendable p w Hm Hh Hl T N).
  rewrite IH. reflexivity.
Qed.

(** An answer that puts on the list a key React cannot render, a plain
    object or an array holding one, takes the component off the page: the
    debounce timer is cleared, no effect runs, and no later event starts a
    request. *)
Theorem unrenderable_key_unmounts (p : Props) (w : World rt) id (newSearch : bool) rest
    (data : json rt) page es :
  mounted w = true ->
  take_call id (inflight w) = Some (newSearch, rest) ->
  maps_to data page ->
  renderable (if newSearch then page else (entries (state w) ++ page)%list) = false ->
  let w' := fst (step p w (Respond id (Parsed data))) in
  mounted w' = false /\ timer w' = None /\
  snd (step p w (Respond id (Parsed data))) = [ClearTimeout] /\
  fetches (snd (run p w' es)) = [].
Proof.
  intros Hm Ht Hp Hr w'. subst w'.
  destruct Hp as [[err [He Te]] Hrest].
  destruct (get_prop_total data "error" "nextPageCursor" err He) as [next Hn].
  destruct (fetchEntries_finish_cases newSearch (Parsed data) (state w))
    as [[t (E & _ & P)]|(d & err' & items & page' & next' & Hd & _ & _ & _ & _ & _ & E & _ & P)].
  - exfalso. unfold page_stored in P.
    rewrite (fetchEntries_try_complete newSearch data page next (state w)
               (conj (ex_intro _ err (conj He Te)) Hrest) Hn) in P.
    discriminate.
  - clear E.
    destruct (fetchEntries_finish_complete newSearch data page next (state w)
                (conj (ex_intro _ err (conj He Te)) Hrest) Hn) as [E _].
    rewrite (step_respond_unrenderable p w id (Parsed data) newSearch rest Hm Ht);
      [|rewrite P, E; cbn [fst entries setIsLoading setHasMore setCursor setEntries];
        rewrite Hr; reflexivity].
    rewrite E. cbn [fst snd]. repeat split.
    match goal with
    | |- context [run p ?x es] =>
        destruct (run_unmounted p es x eq_refl) as (_ & _ & F)
    end.
    exact F.
Qed.

End Unusable.

(** The sentinel seen three times over [state_object_cursor]. *)
Lemma unsendable_cursor_toasts_witness :
  run sample_props (idle_world state_object_cursor) (repeat (Intersect true) 3)
    = (idle_world state_object_cursor,
       repeat (Toast "Error: Cannot convert object to primitive value" "error" 3000%Z) 3).
Proof.
  apply (@unsendable_cursor_toasts sample_runtime sample_props
           (idle_world state_object_cursor) 3); reflexivity.
Defined.

(** [body_object_key] answers one of the two calls of [loading_world]. *)
Lemma unrenderable_key_unmounts_witness :
  mounted (fst (step sample_props loading_world (Respond 0 (Parsed body_object_key))))
    = false /\
  timer (fst (step sample_props loading_world (Respond 0 (Parsed body_object_key))))
    = None /\
  snd (step sample_props loading_world (Respond 0 (Parsed body_object_key)))
    = [ClearTimeout] /\
  fetches (snd (run sample_props
                  (fst (step sample_props loading_world
                          (Respond 0 (Parsed body_object_key))))
                  [Intersect true; Change "x"; Elapse 500%Z])) = [].
Proof.
  apply (@unrenderable_key_unmounts sample_runtime sample_props loading_world 0 false
           [(1, false)] body_object_key
           [entry "k3"; {| key := VJson (JObj [("id", JStr "k4")]) |}]
           [Intersect true; Change "x"; Elapse 500%Z]); try reflexivity.
  split; [exists VUndefined; split; reflexivity|].
  eexists. split; [reflexivity|]. repeat constructor.
Defined.
